(** * Stock tool server and discovery bridge: a shallow embedding

    The Python sources embedded here are
      - tools/stock_info.py            ([get_stock_info])
      - tools/stock_history.py         ([get_historical_prices])
      - stock-mcp/tools/stock_chart.py ([render_stock_chart])
      - stock-mcp/tools/stock_factsheet.py ([get_factsheet])
      - bridge/main.py                 ([wingman_endpoint])

    Tool arguments and literals are [string]s; a ticker symbol only reaches
    a handler after it has matched [A-Z]{1,10}.  The decoded content of the
    instructions file is a [text], a list of Unicode code points.  The
    market-data library, the HTTP client and the clock are oracles gathered
    in a [World]; every call a handler makes to the backend is appended to a
    trace, so that "what was sent to the backend" is a value the theorems
    can talk about.  pydantic's validation of a field value is a
    [Validator]; the interpreter's [float.__repr__] and [str.lower] are
    fields of the chart's [Template].  Exceptions are the [Raise] branch of
    [result]. *)

From Stdlib Require Import ZArith NArith Ascii String List Bool Lia SpecFloat.
From stdpp Require Import base option list gmap strings pretty.

Open Scope Z_scope.

(** ** Python values and exceptions *)

Module Py.

Inductive exn :=
| ValidationError (param reason : string)
| UpstreamError (msg : string)
| HTTPStatusError (status : Z)
| ValueError (msg : string)
| OverflowError (msg : string)
| ZeroDivisionError
| IndexError
| OSError (msg : string)
| ModelValidationError (model : string) (fields : list string).

Inductive result (A : Type) :=
| Ok (a : A)
| Raise (e : exn).
Arguments Ok {A} a.
Arguments Raise {A} e.

Definition rbind {A B} (r : result A) (k : A -> result B) : result B :=
  match r with
  | Ok a => k a
  | Raise e => Raise e
  end.

Definition rmap {A B} (f : A -> B) (r : result A) : result B :=
  rbind r (fun a => Ok (f a)).

(** [try: body except Exception: handler] *)
Definition try_except {A} (body : result A) (handler : A) : A :=
  match body with
  | Ok a => a
  | Raise _ => handler
  end.

(** *** str *)

Definition code (c : ascii) : N := N_of_ascii c.

Definition is_upper_letter (c : ascii) : bool :=
  ((65 <=? code c) && (code c <=? 90))%N.

Definition is_lower_letter (c : ascii) : bool :=
  ((97 <=? code c) && (code c <=? 122))%N.

(** [str.upper] on ASCII text: only a..z change. *)
Definition upper_char (c : ascii) : ascii :=
  if is_lower_letter c then ascii_of_N (code c - 32) else c.

Fixpoint upper (s : string) : string :=
  match s with
  | EmptyString => EmptyString
  | String c s' => String (upper_char c) (upper s')
  end.

(** *** Decoded text

    A [str] whose content is not limited to ASCII is the list of its code
    points. *)
Abbreviation text := (list N).

(** The code points of an ASCII literal. *)
Fixpoint text_of (s : string) : text :=
  match s with
  | EmptyString => []
  | String c s' => code c :: text_of s'
  end.

(** [str.isspace] for one code point: U+0009..000D, U+001C..0020, U+0085,
    U+00A0, U+1680, U+2000..200A, U+2028, U+2029, U+202F, U+205F, U+3000. *)
Definition is_space (c : N) : bool :=
  (((9 <=? c) && (c <=? 13)) || ((28 <=? c) && (c <=? 32)) ||
   (c =? 133) || (c =? 160) || (c =? 5760) ||
   ((8192 <=? c) && (c <=? 8202)) ||
   (c =? 8232) || (c =? 8233) || (c =? 8239) || (c =? 8287) || (c =? 12288))%N.

Fixpoint lstrip (s : text) : text :=
  match s with
  | [] => []
  | c :: s' => if is_space c then lstrip s' else s
  end.

(** Strips the right end: a code point is kept when something non-blank
    follows it or it is itself non-blank. *)
Fixpoint rstrip (s : text) : text :=
  match s with
  | [] => []
  | c :: s' =>
      match rstrip s' with
      | [] => if is_space c then [] else [c]
      | rest => c :: rest
      end
  end.

(** [str.strip()] *)
Definition strip (s : text) : text := rstrip (lstrip s).

(** The text begins, respectively ends, with a blank code point. *)
Definition starts_blank (s : text) : bool :=
  match s with
  | [] => false
  | c :: _ => is_space c
  end.

Fixpoint ends_blank (s : text) : bool :=
  match s with
  | [] => false
  | [c] => is_space c
  | _ :: s' => ends_blank s'
  end.

(** [bool(s)] for a str: non-empty. *)
Definition truthy (s : text) : bool :=
  match s with
  | [] => false
  | _ :: _ => true
  end.

Fixpoint all_chars (p : ascii -> bool) (s : string) : bool :=
  match s with
  | EmptyString => true
  | String c s' => p c && all_chars p s'
  end.

Fixpoint any_char (p : ascii -> bool) (s : string) : bool :=
  match s with
  | EmptyString => false
  | String c s' => p c || any_char p s'
  end.

(** [s[:n]] *)
Fixpoint prefix (n : nat) (s : string) : string :=
  match n, s with
  | O, _ => EmptyString
  | S _, EmptyString => EmptyString
  | S n', String c s' => String c (prefix n' s')
  end.

(** [x is not None] *)
Definition is_not_none {A} (o : option A) : bool :=
  match o with
  | Some _ => true
  | None => false
  end.

(** How an f-string renders an [Optional[str]]: [None] prints as the word
    None. *)
Definition fmt_opt (o : option string) : string :=
  match o with
  | Some s => s
  | None => "None"
  end.

End Py.
Export Py.

#[global] Instance result_ret : MRet result := fun A a => Ok a.
#[global] Instance result_bind : MBind result := fun A B k r => rbind r k.
#[global] Instance result_fmap : FMap result := fun A B f r => rmap f r.

(** ** The outside world: market data, HTTP, clock *)

Module Env.

(** A calendar date (year, month, day): the key type of a price series. *)
Abbreviation date := (Z * Z * Z)%type.

(** One label of the history frame's index.  The handlers probe it with
    [hasattr], so each capability is an optional component: [idx_date] is
    what [idx.date()] returns when the attribute exists, [idx_pydate] is
    [idx.to_pydatetime().date()], [idx_strftime] is
    [idx.strftime('%Y-%m-%d')], and [idx_str] is [str(idx)]. *)
Record Index := {
  idx_date : option date;
  idx_pydate : option date;
  idx_strftime : option string;
  idx_str : string;
}.

(** A pandas frame: column labels and, per row, its index label and one cell
    per column. *)
Record DataFrame (V : Type) := {
  columns : list string;
  rows : list (Index * list V);
}.
Arguments columns {V} _.
Arguments rows {V} _.

(** [hist.empty]: some axis has length zero. *)
Definition df_empty {V} (df : DataFrame V) : bool :=
  match columns df, rows df with
  | [], _ | _, [] => true
  | _, _ => false
  end.

(** [row.get(key)]: the cell under the column labelled [key], if any. *)
Fixpoint row_get {V} (cols : list string) (row : list V) (key : string) : option V :=
  match cols, row with
  | c :: cs, v :: vs => if String.eqb c key then Some v else row_get cs vs key
  | _, _ => None
  end.

(** [key in hist.columns] *)
Definition has_column (cols : list string) (key : string) : bool :=
  existsb (String.eqb key) cols.

(** An HTTP response as [httpx] hands it over. *)
Record Response := {
  status_code : Z;
  content : list N;
}.

(** Calls that leave the process. *)
Inductive call :=
| TickerInfo (ticker : string)
| TickerHistory (ticker : string) (kwargs : gmap string (option string))
| HttpGet (url : string).

Record World (V : Type) := {
  yf_info : string -> result (gmap string V);
  yf_history : string -> gmap string (option string) -> result (DataFrame V);
  http_get : string -> result Response;
  fromisoformat : string -> option date;
  today : date;
}.
Arguments yf_info {V} _ _.
Arguments yf_history {V} _ _ _.
Arguments http_get {V} _ _.
Arguments fromisoformat {V} _ _.
Arguments today {V} _.

(** Handlers run against a trace of the calls made so far. *)
Definition io (A : Type) : Type := list call -> result A * list call.

Definition io_ret {A} (a : A) : io A := fun t => (Ok a, t).

Definition io_bind {A B} (m : io A) (k : A -> io B) : io B :=
  fun t =>
    match m t with
    | (Ok a, t') => k a t'
    | (Raise e, t') => (Raise e, t')
    end.

Definition lift {A} (r : result A) : io A := fun t => (r, t).

Definition perform {A} (c : call) (r : result A) : io A :=
  fun t => (r, t ++ [c]).

(** [yf.Ticker(t).info]; the library fetches the mapping on first access and
    keeps it, so the handler's repeated reads see one mapping. *)
Definition ticker_info {V} (w : World V) (ticker : string) : io (gmap string V) :=
  perform (TickerInfo ticker) (yf_info w ticker).

(** [yf.Ticker(t).history] called with the keyword arguments [kwargs] *)
Definition ticker_history {V} (w : World V) (ticker : string)
    (kwargs : gmap string (option string)) : io (DataFrame V) :=
  perform (TickerHistory ticker kwargs) (yf_history w ticker kwargs).

(** [await client.get(url)] *)
Definition client_get {V} (w : World V) (url : string) : io Response :=
  perform (HttpGet url) (http_get w url).

End Env.
Export Env.

#[global] Instance io_mret : MRet io := @io_ret.
#[global] Instance io_mbind : MBind io := fun A B k m => io_bind m k.

(** ** Parameter validation (the [Field] annotations of every [symbol]) *)

Module Validation.

(** [pattern=r"^[A-Z]{1,10}$"]: the whole text is between [lo] and [hi]
    characters of the class. *)
Fixpoint match_class_repeat (cls : ascii -> bool) (lo hi : nat) (s : string)
    {struct s} : bool :=
  match s with
  | EmptyString => Nat.eqb lo 0
  | String c s' =>
      match hi with
      | O => false
      | S hi' => cls c && match_class_repeat cls (Nat.pred lo) hi' s'
      end
  end.

Definition ticker_pattern (s : string) : bool :=
  match_class_repeat is_upper_letter 1 10 s.

(** [min_length=1, max_length=10, pattern=...] checked in that order; the
    accepted value is the argument itself. *)
Definition validate_symbol (s : string) : result string :=
  if (String.length s <? 1)%nat then
    Raise (ValidationError "symbol" "string_too_short")
  else if (10 <? String.length s)%nat then
    Raise (ValidationError "symbol" "string_too_long")
  else if negb (ticker_pattern s) then
    Raise (ValidationError "symbol" "string_pattern_mismatch")
  else Ok s.

(** The shape the annotations describe: 1 to 10 characters, each an
    uppercase letter. *)
Definition ticker_shape (s : string) : Prop :=
  (1 ≤ String.length s ≤ 10)%nat ∧ all_chars is_upper_letter s = true.

Definition is_validation_error {A} (r : result A) : bool :=
  match r with
  | Raise (ValidationError _ _) => true
  | _ => false
  end.

End Validation.
Export Validation.

(** ** pydantic field validation *)

Module Pydantic.

(** The annotations of the optional fields of [StockInfo]. *)
Inductive annotation :=
| OptionalStr
| OptionalFloatOrStr
| OptionalIntOrStr.

(** pydantic's validation of a value that is not [None] against an
    annotation: the validated, possibly coerced, value, or [None] when the
    value is rejected.  The rules belong to pydantic; the handlers are
    written against any such validator. *)
Class Validator (V : Type) := validate : annotation -> V -> option V.

(** What a field holds after validation: [None] for an absent value (every
    annotation is [Optional]), otherwise the validated value. *)
Definition validated {V} `{Validator V} (ann : annotation) (o : option V) : option V :=
  match o with
  | None => None
  | Some v => validate ann v
  end.

(** The field's name if its value is present and rejected. *)
Definition rejected {V} `{Validator V} (name : string) (ann : annotation)
    (o : option V) : list string :=
  match o with
  | None => []
  | Some v =>
      match validate ann v with
      | Some _ => []
      | None => [name]
      end
  end.

End Pydantic.
Export Pydantic.

(** ** tools/stock_info.py *)

Module StockInfo.

(** The pydantic model.  [V] is the type of the scalars the backend
    supplies; every field but [symbol] is [Optional] with default [None]. *)
Record StockInfo (V : Type) := {
  symbol : string;
  company_name : option V;
  current_price : option V;
  market_cap : option V;
  pe_ratio : option V;
  dividend_yield : option V;
  fifty_two_week_high : option V;
  fifty_two_week_low : option V;
  sector : option V;
  industry : option V;
  volume : option V;
  avg_volume : option V;
  beta : option V;
  book_value : option V;
  eps : option V;
}.
Arguments symbol {V} _.
Arguments company_name {V} _.
Arguments current_price {V} _.
Arguments market_cap {V} _.
Arguments pe_ratio {V} _.
Arguments dividend_yield {V} _.
Arguments fifty_two_week_high {V} _.
Arguments fifty_two_week_low {V} _.
Arguments sector {V} _.
Arguments industry {V} _.
Arguments volume {V} _.
Arguments avg_volume {V} _.
Arguments beta {V} _.
Arguments book_value {V} _.
Arguments eps {V} _.

(** [StockInfo(symbol=..., company_name=..., ...)]: every field is
    validated against its annotation; if some are rejected the constructor
    raises one error naming them, otherwise the model holds the validated
    values. *)
Definition new_StockInfo {V} `{Validator V} (symbol : string)
    (company_name current_price market_cap pe_ratio dividend_yield
     fifty_two_week_high fifty_two_week_low sector industry volume avg_volume
     beta book_value eps : option V) : result (StockInfo V) :=
  let errors :=
    rejected "company_name" OptionalStr company_name ++
    rejected "current_price" OptionalFloatOrStr current_price ++
    rejected "market_cap" OptionalIntOrStr market_cap ++
    rejected "pe_ratio" OptionalFloatOrStr pe_ratio ++
    rejected "dividend_yield" OptionalFloatOrStr dividend_yield ++
    rejected "52_week_high" OptionalFloatOrStr fifty_two_week_high ++
    rejected "52_week_low" OptionalFloatOrStr fifty_two_week_low ++
    rejected "sector" OptionalStr sector ++
    rejected "industry" OptionalStr industry ++
    rejected "volume" OptionalIntOrStr volume ++
    rejected "avg_volume" OptionalIntOrStr avg_volume ++
    rejected "beta" OptionalFloatOrStr beta ++
    rejected "book_value" OptionalFloatOrStr book_value ++
    rejected "eps" OptionalFloatOrStr eps in
  match errors with
  | [] =>
      Ok {| symbol := symbol;
            company_name := validated OptionalStr company_name;
            current_price := validated OptionalFloatOrStr current_price;
            market_cap := validated OptionalIntOrStr market_cap;
            pe_ratio := validated OptionalFloatOrStr pe_ratio;
            dividend_yield := validated OptionalFloatOrStr dividend_yield;
            fifty_two_week_high := validated OptionalFloatOrStr fifty_two_week_high;
            fifty_two_week_low := validated OptionalFloatOrStr fifty_two_week_low;
            sector := validated OptionalStr sector;
            industry := validated OptionalStr industry;
            volume := validated OptionalIntOrStr volume;
            avg_volume := validated OptionalIntOrStr avg_volume;
            beta := validated OptionalFloatOrStr beta;
            book_value := validated OptionalFloatOrStr book_value;
            eps := validated OptionalFloatOrStr eps |}
  | _ :: _ => Raise (ModelValidationError "StockInfo" errors)
  end.

Definition get_stock_info {V} `{Validator V} (w : World V) (symbol : string)
    : io (StockInfo V) :=
  let stock := upper symbol in
  info ← ticker_info w stock;
  lift (new_StockInfo (upper symbol)
          (info !! "longName")
          (info !! "currentPrice")
          (info !! "marketCap")
          (info !! "trailingPE")
          (info !! "dividendYield")
          (info !! "fiftyTwoWeekHigh")
          (info !! "fiftyTwoWeekLow")
          (info !! "sector")
          (info !! "industry")
          (info !! "volume")
          (info !! "averageVolume")
          (info !! "beta")
          (info !! "bookValue")
          (info !! "trailingEps")).

(** The tool as a client calls it: arguments are validated, then the handler
    runs. *)
Definition call_get_stock_info {V} `{Validator V} (w : World V) (symbol : string)
    : io (StockInfo V) :=
  s ← lift (validate_symbol symbol);
  get_stock_info w s.

(** Result field name, the backend key it is read from, and its reader. *)
Definition info_fields {V} : list (string * string * (StockInfo V -> option V)) :=
  [ ("company_name", "longName", company_name);
    ("current_price", "currentPrice", current_price);
    ("market_cap", "marketCap", market_cap);
    ("pe_ratio", "trailingPE", pe_ratio);
    ("dividend_yield", "dividendYield", dividend_yield);
    ("52_week_high", "fiftyTwoWeekHigh", fifty_two_week_high);
    ("52_week_low", "fiftyTwoWeekLow", fifty_two_week_low);
    ("sector", "sector", sector);
    ("industry", "industry", industry);
    ("volume", "volume", volume);
    ("avg_volume", "averageVolume", avg_volume);
    ("beta", "beta", beta);
    ("book_value", "bookValue", book_value);
    ("eps", "trailingEps", eps) ].


End StockInfo.

(** ** tools/stock_history.py *)

Module StockHistory.

(** The two pydantic models; all six fields of a bar are [Optional] with
    default [None].  A bar holds the values the handler passes to the
    constructor, each cell as the row supplies it. *)
Record HistoricalBar (V : Type) := {
  open : option V;
  high : option V;
  low : option V;
  close : option V;
  adj_close : option V;
  volume : option V;
}.
Arguments open {V} _.
Arguments high {V} _.
Arguments low {V} _.
Arguments close {V} _.
Arguments adj_close {V} _.
Arguments volume {V} _.

Record HistoricalPrices (V : Type) := {
  symbol : string;
  resolution : string;
  period : string;
  bars : gmap date (HistoricalBar V);
}.
Arguments symbol {V} _.
Arguments resolution {V} _.
Arguments period {V} _.
Arguments bars {V} _.

(** The keyword arguments for [history] and the period text reported back. *)
Definition request_params (period interval : string) (start end_ : option string)
    : gmap string (option string) * string :=
  if is_not_none start || is_not_none end_ then
    ({[ "start" := start; "end" := end_; "interval" := Some interval ]},
     "start=" +:+ fmt_opt start +:+ ", end=" +:+ fmt_opt end_)
  else
    ({[ "period" := Some period; "interval" := Some interval ]}, period).

(** The date key of one index label. *)
Definition date_key {V} (w : World V) (idx : Index) : date :=
  match idx_date idx with
  | Some d => d
  | None =>
      match idx_pydate idx with
      | Some d => d
      | None =>
          match fromisoformat w (prefix 10 (idx_str idx)) with
          | Some d => d
          | None => today w
          end
      end
  end.

Definition bar_of_row {V} (cols : list string) (row : list V) : HistoricalBar V :=
  {| open := row_get cols row "Open";
     high := row_get cols row "High";
     low := row_get cols row "Low";
     close := row_get cols row "Close";
     adj_close := if has_column cols "Adj Close"
                  then row_get cols row "Adj Close" else None;
     volume := row_get cols row "Volume" |}.

(** Bar field name, the column it is read from, and its reader. *)
Definition bar_fields {V} : list (string * string * (HistoricalBar V -> option V)) :=
  [ ("open", "Open", open);
    ("high", "High", high);
    ("low", "Low", low);
    ("close", "Close", close);
    ("adj_close", "Adj Close", adj_close);
    ("volume", "Volume", volume) ].

(** The loop body: [bars[date_key] = HistoricalBar(...)]. *)
Definition add_bar {V} (w : World V) (cols : list string)
    (bars : gmap date (HistoricalBar V)) (r : Index * list V)
    : gmap date (HistoricalBar V) :=
  <[ date_key w (fst r) := bar_of_row cols (snd r) ]> bars.

Definition build_bars {V} (w : World V) (hist : DataFrame V)
    : gmap date (HistoricalBar V) :=
  if df_empty hist then ∅
  else foldl (add_bar w (columns hist)) ∅ (rows hist).

Definition get_historical_prices {V} (w : World V) (symbol period interval : string)
    (start end_ : option string) : io (HistoricalPrices V) :=
  let '(yf_params, actual_period) := request_params period interval start end_ in
  let stock := upper symbol in
  hist ← ticker_history w stock yf_params;
  mret {| symbol := upper symbol;
          resolution := period;
          period := actual_period;
          bars := build_bars w hist |}.

(** The tool as a client calls it; [period] and [interval] fall back to
    their declared defaults. *)
Definition call_get_historical_prices {V} (w : World V) (symbol : string)
    (period interval start end_ : option string) : io (HistoricalPrices V) :=
  s ← lift (validate_symbol symbol);
  get_historical_prices w s (default "1y" period) (default "1d" interval) start end_.

End StockHistory.

(** ** Python numbers, their formatting and [repr] *)

Module PyNum.

(** A Python float is an IEEE 754 binary64 value. *)
Definition prec : Z := 53.
Definition emax : Z := 1024.

(** The numbers the chart code computes with: [int] and [float]. *)
Inductive num :=
| PInt (z : Z)
| PFloat (f : spec_float).

(** Conversion of an int to the nearest float. *)
Definition float_of_Z (z : Z) : result spec_float :=
  match binary_normalize prec emax z 0 false with
  | S754_infinity _ => Raise (OverflowError "int too large to convert to float")
  | f => Ok f
  end.

(** [float(x)] *)
Definition py_float (x : num) : result spec_float :=
  match x with
  | PInt z => float_of_Z z
  | PFloat f => Ok f
  end.

(** [int(x)]: truncation towards zero. *)
Definition py_int (x : num) : result Z :=
  match x with
  | PInt z => Ok z
  | PFloat (S754_zero _) => Ok 0
  | PFloat (S754_finite s m e) => Ok (cond_Zopp s (Z.shiftl (Zpos m) e))
  | PFloat (S754_infinity _) =>
      Raise (OverflowError "cannot convert float infinity to integer")
  | PFloat S754_nan => Raise (ValueError "cannot convert float NaN to integer")
  end.

(** [a - b] *)
Definition py_sub (a b : num) : result num :=
  match a, b with
  | PInt x, PInt y => Ok (PInt (x - y))
  | _, _ =>
      fa ← py_float a; fb ← py_float b;
      Ok (PFloat (SFsub prec emax fa fb))
  end.

(** [a * b] *)
Definition py_mul (a b : num) : result num :=
  match a, b with
  | PInt x, PInt y => Ok (PInt (x * y))
  | _, _ =>
      fa ← py_float a; fb ← py_float b;
      Ok (PFloat (SFmul prec emax fa fb))
  end.

(** [x == 0] *)
Definition is_zero (x : num) : bool :=
  match x with
  | PInt z => z =? 0
  | PFloat (S754_zero _) => true
  | PFloat _ => false
  end.

(** [x >= 0] *)
Definition ge_zero (x : num) : bool :=
  match x with
  | PInt z => 0 <=? z
  | PFloat f => SFleb (S754_zero false) f
  end.

(** The quotient of two ints, rounded once to the nearest float. *)
Definition int_truediv (x y : Z) : result spec_float :=
  match x, y with
  | _, Z0 => Raise ZeroDivisionError
  | Z0, _ => Ok (S754_zero (y <? 0))
  | _, _ =>
      match SFdiv prec emax
              (S754_finite (x <? 0) (Z.to_pos (Z.abs x)) 0)
              (S754_finite (y <? 0) (Z.to_pos (Z.abs y)) 0) with
      | S754_infinity _ =>
          Raise (OverflowError "integer division result too large for a float")
      | f => Ok f
      end
  end.

(** [a / b] *)
Definition py_truediv (a b : num) : result num :=
  if is_zero b then Raise ZeroDivisionError
  else match a, b with
       | PInt x, PInt y => PFloat <$> int_truediv x y
       | _, _ =>
           fa ← py_float a; fb ← py_float b;
           Ok (PFloat (SFdiv prec emax fa fb))
       end.

(** *** Fixed-point formatting: the [.Nf] presentation type *)

(** [m * 2^e * 10^p] rounded to the nearest integer, ties to even. *)
Definition scaled_round (m : positive) (e : Z) (p : nat) : Z :=
  let n := Zpos m * 10 ^ Z.of_nat p in
  if 0 <=? e then n * 2 ^ e
  else
    let d := 2 ^ (- e) in
    let q := n / d in
    let r := n mod d in
    match 2 * r ?= d with
    | Lt => q
    | Gt => q + 1
    | Eq => if Z.even q then q else q + 1
    end.

Fixpoint zeros (n : nat) : string :=
  match n with
  | O => EmptyString
  | S n' => String "0" (zeros n')
  end.

(** The decimal text of [n / 10^p] with exactly [p] fractional digits. *)
Definition fixed_digits (n : Z) (p : nat) : string :=
  let ip := n / 10 ^ Z.of_nat p in
  let fp := pretty (n mod 10 ^ Z.of_nat p) in
  match p with
  | O => pretty ip
  | S _ => pretty ip +:+ "." +:+ zeros (p - String.length fp) +:+ fp
  end.

Definition sign_text (plus negative : bool) : string :=
  if negative then "-" else if plus then "+" else EmptyString.

(** [format(f, '.Nf')], or ['+.Nf'] when [plus]. *)
Definition format_f (plus : bool) (p : nat) (f : spec_float) : string :=
  match f with
  | S754_zero s => sign_text plus s +:+ fixed_digits 0 p
  | S754_finite s m e => sign_text plus s +:+ fixed_digits (scaled_round m e p) p
  | S754_infinity s => sign_text plus s +:+ "inf"
  | S754_nan => sign_text plus false +:+ "nan"
  end.

(** The same on any number: an int is converted to float first. *)
Definition py_format_f (plus : bool) (p : nat) (x : num) : result string :=
  format_f plus p <$> py_float x.

(** *** [repr] *)

Definition dquote : ascii := "034"%char.
Definition squote : ascii := "039"%char.
Definition backslash : ascii := "092"%char.

Definition hex_digit (n : N) : ascii :=
  if (n <? 10)%N then ascii_of_N (48 + n) else ascii_of_N (87 + n).

Definition singleton (c : ascii) : string := String c EmptyString.

(** One character inside a quoted [repr]; non-printable ones are escaped. *)
Definition repr_char (quote c : ascii) : string :=
  if Ascii.eqb c backslash then String backslash (singleton backslash)
  else if Ascii.eqb c quote then String backslash (singleton quote)
  else if (code c =? 9)%N then String backslash "t"
  else if (code c =? 10)%N then String backslash "n"
  else if (code c =? 13)%N then String backslash "r"
  else if ((code c <? 32) || (127 <=? code c))%N then
    String backslash (String "x" (String (hex_digit (code c / 16))
                                    (singleton (hex_digit (code c mod 16)))))
  else singleton c.

Fixpoint repr_chars (quote : ascii) (s : string) : string :=
  match s with
  | EmptyString => EmptyString
  | String c s' => repr_char quote c +:+ repr_chars quote s'
  end.

(** [repr(s)]: single quotes, unless the text has a single quote and no
    double quote. *)
Definition repr_str (s : string) : string :=
  let quote :=
    if any_char (Ascii.eqb squote) s && negb (any_char (Ascii.eqb dquote) s)
    then dquote else squote in
  String quote (repr_chars quote s +:+ singleton quote).

(** [repr(x)]; the shortest-round-trip text of a float is the interpreter's
    [float_repr]. *)
Definition repr_num (float_repr : spec_float -> string) (x : num) : string :=
  match x with
  | PInt z => pretty z
  | PFloat f => float_repr f
  end.

Fixpoint join (sep : string) (l : list string) : string :=
  match l with
  | [] => EmptyString
  | [x] => x
  | x :: rest => x +:+ sep +:+ join sep rest
  end.

(** *** [base64.b64encode] *)

Definition b64_char (n : N) : ascii :=
  if (n <? 26)%N then ascii_of_N (65 + n)
  else if (n <? 52)%N then ascii_of_N (71 + n)
  else if (n <? 62)%N then ascii_of_N (n - 4)
  else if (n =? 62)%N then "+"%char
  else "/"%char.

Fixpoint b64encode (bs : list N) : string :=
  match bs with
  | [] => EmptyString
  | [a] =>
      let n := (a * 65536)%N in
      String (b64_char (n / 262144)) (String (b64_char ((n / 4096) mod 64)) "==")
  | [a; b] =>
      let n := (a * 65536 + b * 256)%N in
      String (b64_char (n / 262144)) (String (b64_char ((n / 4096) mod 64))
        (String (b64_char ((n / 64) mod 64)) "="))
  | a :: b :: c :: rest =>
      let n := (a * 65536 + b * 256 + c)%N in
      String (b64_char (n / 262144)) (String (b64_char ((n / 4096) mod 64))
        (String (b64_char ((n / 64) mod 64)) (String (b64_char (n mod 64))
          (b64encode rest))))
  end.

(** [s.encode('utf-8')] on ASCII text: one byte per character. *)
Fixpoint encode_utf8 (s : string) : list N :=
  match s with
  | EmptyString => []
  | String c s' => code c :: encode_utf8 s'
  end.

End PyNum.
Export PyNum.

(** ** pydantic on numbers *)

Module NumValidator.

(** [int(f)] as pydantic's lax int validation does it for a float: only a
    finite float without fractional part, strictly between -2^63 and 2^63. *)
Definition int_of_whole_float (f : spec_float) : option Z :=
  match f with
  | S754_zero _ => Some 0
  | S754_finite s m e =>
      let z := cond_Zopp s (Z.shiftl (Zpos m) e) in
      if (0 <=? e) || (Z.land (Zpos m) (Z.ones (- e)) =? 0) then
        if (- 2 ^ 63 <? z) && (z <? 2 ^ 63) then Some z else None
      else None
  | _ => None
  end.

(** Validation of an int or float value (lax mode, smart unions): a number
    is never a [str]; [Union[float, str]] keeps a float and turns an int
    into the float of the same value; [Union[int, str]] keeps an int and
    turns a whole float into the int of the same value. *)
Definition validate_num (ann : annotation) (x : num) : option num :=
  match ann, x with
  | OptionalStr, _ => None
  | OptionalFloatOrStr, PFloat f => Some (PFloat f)
  | OptionalFloatOrStr, PInt z =>
      match float_of_Z z with
      | Ok f => Some (PFloat f)
      | Raise _ => None
      end
  | OptionalIntOrStr, PInt z => Some (PInt z)
  | OptionalIntOrStr, PFloat f => PInt <$> int_of_whole_float f
  end.

End NumValidator.
Export NumValidator.

#[global] Instance num_validator : Validator num := validate_num.

(** ** What a resource tool returns *)

Module Resource.

(** [EmbeddedResource(type="resource", resource=BlobResourceContents(...))] *)
Record BlobResource := {
  uri : string;
  mime_type : string;
  blob : string;
  meta : list (string * list string);
}.

End Resource.
Export Resource.

(** ** stock-mcp/tools/stock_chart.py *)

Module StockChart.

(** One entry of [chart_data]. *)
Record Point := {
  p_date : string;
  p_open : num;
  p_high : num;
  p_low : num;
  p_close : num;
  p_volume : Z;
}.

(** The literal text of the page between the substituted values, the three
    drawing scripts, and two functions of the interpreter: the [repr] of a
    float and [str.lower]. *)
Record Template := {
  html_head : string;
  html_period : string;
  html_price : string;
  html_change : string;
  html_points : string;
  html_data : string;
  html_script : string;
  html_tail : string;
  script_line : string;
  script_candlestick : string;
  script_area : string;
  float_repr : spec_float -> string;
  str_lower : string -> string;
}.

(** [row.get(key, 0)] *)
Definition cell_or_zero (cols : list string) (row : list num) (key : string) : num :=
  default (PInt 0) (row_get cols row key).

(** The dict appended for one row of the frame. *)
Definition point_of_row (cols : list string) (r : Index * list num) : result Point :=
  let date_str :=
    match idx_strftime (fst r) with
    | Some s => s
    | None => prefix 10 (idx_str (fst r))
    end in
  o ← py_float (cell_or_zero cols (snd r) "Open");
  h ← py_float (cell_or_zero cols (snd r) "High");
  l ← py_float (cell_or_zero cols (snd r) "Low");
  c ← py_float (cell_or_zero cols (snd r) "Close");
  v ← py_int (cell_or_zero cols (snd r) "Volume");
  Ok {| p_date := date_str;
        p_open := PFloat o; p_high := PFloat h; p_low := PFloat l;
        p_close := PFloat c; p_volume := v |}.

Fixpoint points_of_rows (cols : list string) (rs : list (Index * list num))
    : result (list Point) :=
  match rs with
  | [] => Ok []
  | r :: rest =>
      p ← point_of_row cols r;
      ps ← points_of_rows cols rest;
      Ok (p :: ps)
  end.

Definition dummy_point : Point :=
  {| p_date := "2024-01-01";
     p_open := PInt 100; p_high := PInt 100; p_low := PInt 100;
     p_close := PInt 100; p_volume := 0 |}.

(** [chart_data] after both steps: the rows of a non-empty frame, or the
    single dummy point when there is nothing to show. *)
Definition chart_data_of (hist : DataFrame num) : result (list Point) :=
  data ← (if df_empty hist then Ok [] else points_of_rows (columns hist) (rows hist));
  Ok (match data with
      | [] => [dummy_point]
      | _ => data
      end).

Record Stats := {
  latest_price : num;
  first_price : num;
  price_change : num;
  price_change_pct : num;
}.

Definition price_stats (chart_data : list Point) : result Stats :=
  latest ← from_option Ok (Raise IndexError) (p_close <$> last chart_data);
  first ← from_option Ok (Raise IndexError) (p_close <$> head chart_data);
  change ← py_sub latest first;
  pct ← (if negb (is_zero first) then
           d ← py_sub latest first;
           q ← py_truediv d first;
           py_mul q (PInt 100)
         else Ok (PInt 0));
  Ok {| latest_price := latest; first_price := first;
        price_change := change; price_change_pct := pct |}.

Definition chart_script (t : Template) (chart_type : string) : string :=
  if String.eqb (str_lower t chart_type) "line" then script_line t
  else if String.eqb (str_lower t chart_type) "candlestick" then script_candlestick t
  else script_area t.

Definition repr_point (t : Template) (p : Point) : string :=
  "{'date': " +:+ repr_str (p_date p) +:+
  ", 'open': " +:+ repr_num (float_repr t) (p_open p) +:+
  ", 'high': " +:+ repr_num (float_repr t) (p_high p) +:+
  ", 'low': " +:+ repr_num (float_repr t) (p_low p) +:+
  ", 'close': " +:+ repr_num (float_repr t) (p_close p) +:+
  ", 'volume': " +:+ pretty (p_volume p) +:+ "}".

(** [{chart_data}] inside the f-string. *)
Definition repr_chart_data (t : Template) (data : list Point) : string :=
  "[" +:+ join ", " (repr_point t <$> data) +:+ "]".

(** The text of the Change statistic:
    [${price_change:+.2f} ({price_change_pct:+.1f}%)]. *)
Definition change_text (s : Stats) : result string :=
  c ← py_format_f true 2 (price_change s);
  p ← py_format_f true 1 (price_change_pct s);
  Ok ("$" +:+ c +:+ " (" +:+ p +:+ "%)").

(** The page: the template's text with the values substituted in the
    f-string's order. *)
Definition render_html (t : Template) (symbol chart_type actual_period : string)
    (chart_data : list Point) (s : Stats) : result string :=
  price ← py_format_f false 2 (latest_price s);
  change ← change_text s;
  Ok (html_head t +:+ upper symbol +:+
      html_period t +:+ actual_period +:+
      html_price t +:+ "$" +:+ price +:+
      html_change t +:+ (if ge_zero (price_change s) then "positive" else "negative") +:+
      String dquote ">" +:+ change +:+
      html_points t +:+ pretty (length chart_data) +:+
      html_data t +:+ repr_chart_data t chart_data +:+
      html_script t +:+ chart_script t chart_type +:+
      html_tail t).

(** Everything after the frame has arrived. *)
Definition chart_document (t : Template) (symbol chart_type actual_period : string)
    (hist : DataFrame num) : result string :=
  chart_data ← chart_data_of hist;
  stats ← price_stats chart_data;
  render_html t symbol chart_type actual_period chart_data stats.

Definition render_stock_chart (t : Template) (w : World num)
    (symbol chart_type period interval : string) (start end_ : option string)
    : io BlobResource :=
  (* the same branch on [start] and [end] as in [get_historical_prices] *)
  let '(yf_params, actual_period) :=
    StockHistory.request_params period interval start end_ in
  let stock := upper symbol in
  hist ← ticker_history w stock yf_params;
  html ← lift (chart_document t symbol chart_type actual_period hist);
  mret {| uri := "ui://data/chart/" +:+ symbol;
          mime_type := "text/html";
          blob := b64encode (encode_utf8 html);
          meta := [("mcpui.dev/ui-preferred-frame-size", ["800px"; "1000px"])] |}.

Definition call_render_stock_chart (t : Template) (w : World num) (symbol : string)
    (chart_type period interval start end_ : option string) : io BlobResource :=
  s ← lift (validate_symbol symbol);
  render_stock_chart t w s (default "candlestick" chart_type)
    (default "1mo" period) (default "1d" interval) start end_.

End StockChart.
Export StockChart.

(** ** stock-mcp/tools/stock_factsheet.py *)

Module StockFactsheet.

Definition pdf_url : string :=
  "https://www.adobe.com/support/products/enterprise/knowledgecenter/media/c4611_sample_explain.pdf".

(** [response.raise_for_status()]: any status outside 2xx raises. *)
Definition raise_for_status (r : Response) : result unit :=
  if (200 <=? status_code r) && (status_code r <? 300) then Ok tt
  else Raise (HTTPStatusError (status_code r)).

Definition get_factsheet {V} (w : World V) (symbol : string) : io BlobResource :=
  response ← client_get w pdf_url;
  _ ← lift (raise_for_status response);
  let pdf_content := content response in
  let pdf_base64 := b64encode pdf_content in
  mret {| uri := "ui://data/factsheets/" +:+ symbol +:+ ".pdf";
          mime_type := "application/pdf";
          blob := pdf_base64;
          meta := [] |}.

Definition call_get_factsheet {V} (w : World V) (symbol : string) : io BlobResource :=
  s ← lift (validate_symbol symbol);
  get_factsheet w s.

End StockFactsheet.
Export StockFactsheet.

(** ** bridge/main.py *)

Module Bridge.

(** The file [instructions.md] in the directory above [bridge/], as one
    request sees it: what [exists()] does (it answers, or raises the [OSError] it does not ignore,
    such as a permission error), and what opening and reading the file as
    UTF-8 gives. *)
Record InstructionsFile := {
  file_exists : result bool;
  file_read : result text;
}.

(** The handler of [GET /.well-known/wingman]; the value is the mapping
    handed to [JSONResponse].  Only the reading is inside the [try]. *)
Definition wingman_endpoint (f : InstructionsFile) : result (gmap string text) :=
  let data : gmap string text := {[ "name" := text_of "wingman" ]} in
  present ← file_exists f;
  let data :=
    if present : bool then
      try_except
        (content ← file_read f;
         let instructions := strip content in
         Ok (if truthy instructions
             then <[ "instructions" := instructions ]> data
             else data))
        data
    else data in
  Ok data.

End Bridge.
Export Bridge.

(** ** Shapes of input used to state properties *)

Module Shapes.

(** A character of the ASCII range, and lowercasing within that range. *)
Definition is_ascii (c : ascii) : bool := (code c <? 128)%N.

Definition ascii_lower_char (c : ascii) : ascii :=
  if is_upper_letter c then ascii_of_N (code c + 32) else c.

Fixpoint ascii_lower (s : string) : string :=
  match s with
  | EmptyString => EmptyString
  | String c s' => String (ascii_lower_char c) (ascii_lower s')
  end.

(** An ASCII letter of either case. *)
Definition is_letter (c : ascii) : bool := is_upper_letter c || is_lower_letter c.

(** A cell the chart can pass to [float]: absent, or already a float. *)
Definition float_cell (c : option num) : bool :=
  match c with
  | Some (PInt _) => false
  | _ => true
  end.

(** A cell the chart can pass to [int]: absent, an int, or a finite float. *)
Definition countable_cell (c : option num) : bool :=
  match c with
  | Some (PFloat S754_nan) | Some (PFloat (S754_infinity _)) => false
  | _ => true
  end.

(** A row whose price cells are floats and whose volume is a number. *)
Definition plain_row (cols : list string) (r : Index * list num) : bool :=
  float_cell (row_get cols (snd r) "Open") &&
  float_cell (row_get cols (snd r) "High") &&
  float_cell (row_get cols (snd r) "Low") &&
  float_cell (row_get cols (snd r) "Close") &&
  countable_cell (row_get cols (snd r) "Volume").

Definition is_float (x : num) : bool :=
  match x with
  | PFloat _ => true
  | PInt _ => false
  end.

(** A float that is zero or a positive finite number. *)
Definition nonneg_finite (f : spec_float) : bool :=
  match f with
  | S754_zero _ | S754_finite false _ _ => true
  | _ => false
  end.

(** The date text the chart gives a row. *)
Definition date_text (r : Index * list num) : string :=
  match idx_strftime (fst r) with
  | Some s => s
  | None => prefix 10 (idx_str (fst r))
  end.

End Shapes.
Export Shapes.

(** ** Concrete data used to run the model *)

Module Sample.

Definition f100 : spec_float := S754_finite false 7036874417766400 (-46).
Definition f101 : spec_float := S754_finite false 7107243161944064 (-46).

(** A pandas timestamp at midnight of [d], printed as [s]. *)
Definition timestamp (d : date) (s : string) : Index :=
  {| idx_date := Some d; idx_pydate := Some d;
     idx_strftime := Some s; idx_str := s +:+ " 00:00:00" |}.

Definition frame_none : DataFrame num :=
  {| columns := ["Open"; "High"; "Low"; "Close"; "Volume"]; rows := [] |}.

(** A frame whose backend columns are only Close and Volume. *)
Definition frame_close_only : DataFrame num :=
  {| columns := ["Close"; "Volume"];
     rows := [ (timestamp (2024, 8, 9) "2024-08-09", [PFloat f100; PInt 7]) ] |}.

Definition frame_adjusted : DataFrame num :=
  {| columns := ["Open"; "High"; "Low"; "Close"; "Adj Close"; "Volume"];
     rows := [ (timestamp (2024, 8, 8) "2024-08-08",
                [PFloat f100; PFloat f101; PFloat f100; PFloat f101; PFloat f100; PInt 5]);
               (timestamp (2024, 8, 9) "2024-08-09",
                [PFloat f101; PFloat f101; PFloat f100; PFloat f100; PFloat f101; PInt 7]) ] |}.

Definition world : World num :=
  {| yf_info := fun ticker =>
       if String.eqb ticker "AAPL"
       then Ok {[ "marketCap" := PInt 3000000; "currentPrice" := PInt 100 ]}
       else if String.eqb ticker "IBM"
       then Ok {[ "longName" := PInt 1; "currentPrice" := PFloat f100 ]}
       else Ok ∅;
     yf_history := fun ticker _ =>
       if String.eqb ticker "AAPL" then Ok frame_adjusted
       else if String.eqb ticker "MSFT" then Ok frame_close_only
       else Ok frame_none;
     http_get := fun _ => Ok {| status_code := 200; content := [37; 80; 68; 70]%N |};
     fromisoformat := fun _ => None;
     today := (2026, 1, 1) |}.

Definition template : Template :=
  {| html_head := "<title>"; html_period := " Chart</title><p>";
     html_price := "</p><p>"; html_change := "</p><p class=";
     html_points := "</p><p>"; html_data := "</p><script>const rawData = ";
     html_script := ";"; html_tail := "</script>";
     script_line := "line()"; script_candlestick := "candles()";
     script_area := "area()";
     float_repr := fun f => format_f false 1 f;
     str_lower := ascii_lower |}.

Definition file_missing : InstructionsFile :=
  {| file_exists := Ok false;
     file_read := Raise (OSError "No such file or directory") |}.

Definition file_unreadable : InstructionsFile :=
  {| file_exists := Ok true; file_read := Raise (OSError "Permission denied") |}.

(** [exists()] itself fails: the directory cannot be searched. *)
Definition file_denied : InstructionsFile :=
  {| file_exists := Raise (OSError "Permission denied");
     file_read := Raise (OSError "Permission denied") |}.

Definition file_text : InstructionsFile :=
  {| file_exists := Ok true;
     file_read := Ok (text_of "  Use the stock tools.  ") |}.

(** Two intraday rows of one day, and a label that carries no date. *)
Definition intraday (d : date) (s clock : string) : Index :=
  {| idx_date := Some d; idx_pydate := Some d;
     idx_strftime := Some s; idx_str := s +:+ " " +:+ clock |}.

Definition frame_intraday : DataFrame num :=
  {| columns := ["Close"; "Volume"];
     rows := [ (intraday (2024, 8, 9) "2024-08-09" "09:30:00", [PFloat f100; PInt 5]);
               (intraday (2024, 8, 9) "2024-08-09" "09:31:00", [PFloat f101; PInt 7]) ] |}.

Definition frame_nan_volume : DataFrame num :=
  {| columns := ["Close"; "Volume"];
     rows := [ (timestamp (2024, 8, 9) "2024-08-09", [PFloat f100; PFloat S754_nan]) ] |}.

Definition frame_one_row : DataFrame num :=
  {| columns := ["Open"; "Close"; "Volume"];
     rows := [ (timestamp (2024, 8, 9) "2024-08-09",
                [PFloat f100; PFloat f101; PFloat f100]) ] |}.

Definition world_down : World num :=
  {| yf_info := fun _ => Raise (UpstreamError "timeout");
     yf_history := fun ticker _ =>
       if String.eqb ticker "NAN" then Ok frame_nan_volume
       else if String.eqb ticker "ONE" then Ok frame_one_row
       else if String.eqb ticker "DAY" then Ok frame_intraday
       else Raise (UpstreamError "timeout");
     http_get := fun _ => Ok {| status_code := 404; content := [] |};
     fromisoformat := fun _ => None;
     today := (2026, 1, 1) |}.

(** The sample backend with one more key in every quote. *)
Definition world_extra : World num :=
  {| yf_info := fun ticker => insert "website" (PInt 42) <$> yf_info world ticker;
     yf_history := yf_history world;
     http_get := http_get world;
     fromisoformat := fromisoformat world;
     today := today world |}.

(** Labels that offer no date and whose text is not a date. *)
Definition opaque_label (s : string) : Index :=
  {| idx_date := None; idx_pydate := None; idx_strftime := None; idx_str := s |}.

Definition frame_opaque : DataFrame num :=
  {| columns := ["Close"];
     rows := [ (opaque_label "row-a", [PFloat f100]);
               (opaque_label "row-b", [PFloat f101]) ] |}.

(** A file holding a no-break space, an em space and a newline. *)
Definition file_blank : InstructionsFile :=
  {| file_exists := Ok true; file_read := Ok [160; 8195; 10]%N |}.

End Sample.

(** * Properties *)

(** ** Text and validation lemmas *)

Lemma match_class_repeat_spec cls lo hi s :
  match_class_repeat cls lo hi s = true ↔
  (lo ≤ String.length s ≤ hi)%nat ∧ all_chars cls s = true.
Proof.
  revert lo hi. induction s as [|c s IH]; intros lo hi; simpl.
  - destruct lo; simpl.
    + split; [intros _; split; [lia | reflexivity] | reflexivity].
    + split; [discriminate | intros [? _]; lia].
  - destruct hi as [|hi].
    + split; [discriminate | intros [? _]; lia].
    + rewrite !andb_true_iff, IH. split.
      * intros (Hc & [Hlo Hhi] & Hs). repeat split; [lia | lia | done | done].
      * intros ([Hlo Hhi] & Hc & Hs). repeat split; [done | lia | lia | done].
Qed.

Lemma ticker_pattern_spec s : ticker_pattern s = true ↔ ticker_shape s.
Proof. apply match_class_repeat_spec. Qed.

Lemma validate_symbol_Ok s : ticker_shape s → validate_symbol s = Ok s.
Proof.
  intros Hs. pose proof Hs as [[Hlo Hhi] _]. unfold validate_symbol.
  destruct (Nat.ltb_spec (String.length s) 1); [lia|].
  destruct (Nat.ltb_spec 10 (String.length s)); [lia|].
  apply ticker_pattern_spec in Hs. by rewrite Hs.
Qed.

Lemma validate_symbol_Raise s :
  ¬ ticker_shape s →
  ∃ reason, validate_symbol s = Raise (ValidationError "symbol" reason).
Proof.
  intros Hs. unfold validate_symbol.
  destruct (String.length s <? 1)%nat; [eauto|].
  destruct (10 <? String.length s)%nat; [eauto|].
  destruct (ticker_pattern s) eqn:Hp; [|simpl; eauto].
  by apply ticker_pattern_spec in Hp.
Qed.

Lemma validate_symbol_inv s s' :
  validate_symbol s = Ok s' → s' = s ∧ ticker_shape s.
Proof.
  intros H. destruct (ticker_pattern s) eqn:Hp.
  - apply ticker_pattern_spec in Hp.
    rewrite (validate_symbol_Ok _ Hp) in H.
    inversion H; subst. split; [reflexivity | assumption].
  - assert (¬ ticker_shape s) as Hn.
    { intros Hs. apply ticker_pattern_spec in Hs. congruence. }
    destruct (validate_symbol_Raise _ Hn) as [r Hr]. congruence.
Qed.

Lemma upper_letter_not_lower c : is_upper_letter c = true → is_lower_letter c = false.
Proof.
  unfold is_upper_letter, is_lower_letter.
  rewrite andb_true_iff, andb_false_iff, !N.leb_le, !N.leb_gt. lia.
Qed.


Lemma lowercase_breaks_shape s : any_char is_lower_letter s = true → ¬ ticker_shape s.
Proof.
  intros Hl [_ Hu]. induction s as [|c s IH]; simpl in *; [done|].
  apply andb_true_iff in Hu as [Hc Hu].
  apply orb_true_iff in Hl as [Hl|Hl]; [|by apply IH].
  rewrite (upper_letter_not_lower _ Hc) in Hl. done.
Qed.

(** ** Running a handler: trace lemmas *)

Lemma lift_bind_run {A B} (r : result A) (k : A → io B) (tr : list call) :
  (lift r ≫= k) tr =
  match r with
  | Ok a => k a tr
  | Raise e => (Raise e, tr)
  end.
Proof. by destruct r. Qed.

Lemma bind_Ok {A B} (a : A) (k : A → result B) : Ok a ≫= k = k a.
Proof. reflexivity. Qed.

Lemma get_stock_info_run {V} `{Validator V} (w : World V) s tr :
  StockInfo.get_stock_info w s tr =
  (yf_info w (upper s) ≫= (λ info,
     StockInfo.new_StockInfo (upper s)
       (info !! "longName") (info !! "currentPrice") (info !! "marketCap")
       (info !! "trailingPE") (info !! "dividendYield")
       (info !! "fiftyTwoWeekHigh") (info !! "fiftyTwoWeekLow")
       (info !! "sector") (info !! "industry") (info !! "volume")
       (info !! "averageVolume") (info !! "beta") (info !! "bookValue")
       (info !! "trailingEps")),
   tr ++ [TickerInfo (upper s)]).
Proof.
  unfold StockInfo.get_stock_info, ticker_info, perform, lift, mbind, io_mbind, io_bind.
  destruct (yf_info w (upper s)) as [info|e]; simpl; [|done].
  by destruct (StockInfo.new_StockInfo _ _ _ _ _ _ _ _ _ _ _ _ _ _ _).
Qed.

Lemma get_historical_prices_run {V} (w : World V) s p i st en tr :
  StockHistory.get_historical_prices w s p i st en tr =
  ((λ hist, {|
      StockHistory.symbol := upper s;
      StockHistory.resolution := p;
      StockHistory.period := snd (StockHistory.request_params p i st en);
      StockHistory.bars := StockHistory.build_bars w hist |})
     <$> yf_history w (upper s) (fst (StockHistory.request_params p i st en)),
   tr ++ [TickerHistory (upper s) (fst (StockHistory.request_params p i st en))]).
Proof.
  unfold StockHistory.get_historical_prices.
  destruct (StockHistory.request_params p i st en) as [kw ap]; simpl.
  unfold ticker_history, perform, mbind, io_mbind, io_bind.
  by destruct (yf_history w (upper s) kw).
Qed.

Lemma render_stock_chart_run t (w : World num) s ct p i st en tr :
  render_stock_chart t w s ct p i st en tr =
  ((hist ← yf_history w (upper s) (fst (StockHistory.request_params p i st en));
    html ← chart_document t s ct (snd (StockHistory.request_params p i st en)) hist;
    Ok {| uri := "ui://data/chart/" +:+ s;
          mime_type := "text/html";
          blob := b64encode (encode_utf8 html);
          meta := [("mcpui.dev/ui-preferred-frame-size", ["800px"; "1000px"])] |}),
   tr ++ [TickerHistory (upper s) (fst (StockHistory.request_params p i st en))]).
Proof.
  unfold render_stock_chart.
  destruct (StockHistory.request_params p i st en) as [kw ap]; simpl.
  unfold ticker_history, perform, mbind, io_mbind, io_bind, lift.
  destruct (yf_history w (upper s) kw) as [hist|e]; simpl; [|done].
  by destruct (chart_document t s ct ap hist).
Qed.

Lemma get_factsheet_run {V} (w : World V) s tr :
  get_factsheet w s tr =
  ((response ← http_get w pdf_url;
    _ ← raise_for_status response;
    Ok {| uri := "ui://data/factsheets/" +:+ s +:+ ".pdf";
          mime_type := "application/pdf";
          blob := b64encode (content response);
          meta := [] |}),
   tr ++ [HttpGet pdf_url]).
Proof.
  unfold get_factsheet, client_get, perform, mbind, io_mbind, io_bind, lift.
  destruct (http_get w pdf_url) as [r|e]; simpl; [|done].
  by destruct (raise_for_status r).
Qed.

(** ** Symbol validation (C8) and case handling (C1) *)

Section SymbolValidation.
Context {V : Type} {validator : Validator V} (w : World V) (wc : World num) (t : Template).

(** C8.  A symbol that is not 1 to 10 uppercase letters makes each of the
    four tools fail with a validation error on [symbol] and leaves the trace
    of backend calls exactly as it was; a symbol of that shape passes
    validation unchanged and reaches the handler. *)
Theorem symbol_pattern_enforced (s : string)
    (chart_type period interval start end_ : option string) (tr : list call) :
  (ticker_shape s →
     validate_symbol s = Ok s ∧
     StockInfo.call_get_stock_info w s tr = StockInfo.get_stock_info w s tr ∧
     call_get_factsheet w s tr = get_factsheet w s tr) ∧
  (¬ ticker_shape s →
     ∃ reason,
       validate_symbol s = Raise (ValidationError "symbol" reason) ∧
       StockInfo.call_get_stock_info w s tr
         = (Raise (ValidationError "symbol" reason), tr) ∧
       StockHistory.call_get_historical_prices w s period interval start end_ tr
         = (Raise (ValidationError "symbol" reason), tr) ∧
       call_render_stock_chart t wc s chart_type period interval start end_ tr
         = (Raise (ValidationError "symbol" reason), tr) ∧
       call_get_factsheet w s tr
         = (Raise (ValidationError "symbol" reason), tr)).
Proof.
  split.
  - intros Hs. pose proof (validate_symbol_Ok s Hs) as Hv.
    unfold StockInfo.call_get_stock_info, call_get_factsheet.
    rewrite !lift_bind_run, Hv. done.
  - intros Hs. destruct (validate_symbol_Raise s Hs) as [reason Hv].
    exists reason.
    unfold StockInfo.call_get_stock_info,
      StockHistory.call_get_historical_prices,
      call_render_stock_chart, call_get_factsheet.
    rewrite !lift_bind_run, Hv. done.
Qed.

End SymbolValidation.

Lemma symbol_pattern_enforced_witness :
  validate_symbol "AAPL" = Ok "AAPL" ∧
  ∃ reason,
    call_get_factsheet Sample.world "aapl" []
      = (Raise (ValidationError "symbol" reason), []).
Proof.
  split.
  - apply (symbol_pattern_enforced Sample.world Sample.world Sample.template
             "AAPL" None None None None None []).
    split; [simpl; lia | reflexivity].
  - destruct (proj2 (symbol_pattern_enforced Sample.world Sample.world Sample.template
                       "aapl" None None None None None []))
      as (reason & _ & _ & _ & _ & H).
    + intros [_ H]. discriminate H.
    + exists reason. exact H.
Defined.

(** C1 at the spec's own example.  The tool called with [aapl] does not
    send [AAPL] to the backend: [get_stock_info] and [get_historical_prices]
    fail in validation and the trace stays empty.  The handler body, which
    the call never reaches, would itself have asked the backend for
    [AAPL]. *)
Lemma lowercase_symbol_not_dispatched :
  any_char is_lower_letter "aapl" = true ∧
  StockInfo.call_get_stock_info Sample.world "aapl" []
    = (Raise (ValidationError "symbol" "string_pattern_mismatch"), []) ∧
  StockHistory.call_get_historical_prices Sample.world "aapl" None None None None []
    = (Raise (ValidationError "symbol" "string_pattern_mismatch"), []) ∧
  (TickerInfo "AAPL" ∉ snd (StockInfo.call_get_stock_info Sample.world "aapl" [])) ∧
  snd (StockInfo.get_stock_info Sample.world "aapl" []) = [TickerInfo "AAPL"].
Proof.
  repeat split; try reflexivity.
  intros H. vm_compute in H. inversion H.
Qed.

(** ** Request parameters (C4) *)

Lemma request_params_range p i st en :
  is_Some st ∨ is_Some en →
  StockHistory.request_params p i st en =
  ({[ "start" := st; "end" := en; "interval" := Some i ]},
   "start=" +:+ fmt_opt st +:+ ", end=" +:+ fmt_opt en).
Proof.
  unfold StockHistory.request_params.
  intros [[x ->]|[x ->]]; [done|]. by destruct st.
Qed.

Lemma request_params_period p i :
  StockHistory.request_params p i None None =
  ({[ "period" := Some p; "interval" := Some i ]}, p).
Proof. done. Qed.

Lemma request_params_interval p i st en :
  fst (StockHistory.request_params p i st en) !! "interval" = Some (Some i).
Proof.
  unfold StockHistory.request_params.
  destruct (is_not_none st || is_not_none en); simpl.
  - rewrite !lookup_insert_ne by done. apply lookup_singleton_eq.
  - rewrite lookup_insert_ne by done. apply lookup_singleton_eq.
Qed.

Section Requests.
Context {V : Type} (w : World V) (wc : World num) (t : Template).

(** C4.  [get_historical_prices] and [render_stock_chart] make one history
    request for the uppercased symbol.  Its [interval] is always the one
    supplied.  When a start or an end date is supplied the request carries
    [start] and [end], has no [period] key, and is the same whatever the
    period argument is; when neither is supplied it carries [period] and no
    date bound. *)
Theorem date_range_overrides_period (s chart_type p i : string)
    (st en : option string) (tr : list call) :
  ∃ kwargs,
    snd (StockHistory.get_historical_prices w s p i st en tr)
      = tr ++ [TickerHistory (upper s) kwargs] ∧
    snd (render_stock_chart t wc s chart_type p i st en tr)
      = tr ++ [TickerHistory (upper s) kwargs] ∧
    kwargs !! "interval" = Some (Some i) ∧
    (is_Some st ∨ is_Some en →
       kwargs !! "start" = Some st ∧
       kwargs !! "end" = Some en ∧
       kwargs !! "period" = None ∧
       ∀ p',
         snd (StockHistory.get_historical_prices w s p' i st en tr)
           = tr ++ [TickerHistory (upper s) kwargs] ∧
         snd (render_stock_chart t wc s chart_type p' i st en tr)
           = tr ++ [TickerHistory (upper s) kwargs]) ∧
    (st = None → en = None →
       kwargs !! "period" = Some (Some p) ∧
       kwargs !! "start" = None ∧
       kwargs !! "end" = None).
Proof.
  exists (fst (StockHistory.request_params p i st en)).
  rewrite get_historical_prices_run, render_stock_chart_run. simpl.
  split; [done|]. split; [done|].
  split; [apply request_params_interval|]. split.
  - intros Hr. rewrite (request_params_range p i st en Hr). simpl.
    split; [apply lookup_insert_eq|].
    split; [rewrite lookup_insert_ne by done; apply lookup_insert_eq|].
    split.
    + rewrite !lookup_insert_ne by done. by apply lookup_singleton_ne.
    + intros p'. rewrite get_historical_prices_run, render_stock_chart_run.
      by rewrite (request_params_range p' i st en Hr).
  - intros -> ->. rewrite request_params_period. simpl.
    split; [apply lookup_insert_eq|].
    split; rewrite lookup_insert_ne by done; by apply lookup_singleton_ne.
Qed.

End Requests.

Lemma date_range_overrides_period_witness :
  ∃ kwargs,
    snd (StockHistory.get_historical_prices Sample.world "AAPL" "5y" "1wk"
           (Some "2024-01-01") None [])
      = [TickerHistory "AAPL" kwargs] ∧
    kwargs !! "start" = Some (Some "2024-01-01") ∧
    kwargs !! "end" = Some None ∧
    kwargs !! "period" = None ∧
    kwargs !! "interval" = Some (Some "1wk").
Proof.
  destruct (date_range_overrides_period Sample.world Sample.world Sample.template
              "AAPL" "line" "5y" "1wk" (Some "2024-01-01") None [])
    as (kwargs & Hh & _ & Hi & Hrange & _).
  destruct Hrange as (Hs & He & Hp & _).
  - left. exists "2024-01-01". reflexivity.
  - exists kwargs. repeat split; assumption.
Defined.

(** ** The price series (C5, C6, C10) *)

Lemma df_empty_no_rows {V} (hist : DataFrame V) : rows hist = [] → df_empty hist = true.
Proof. unfold df_empty. intros ->. by destruct (columns hist). Qed.


(** Every row leaves a bar under its date key. *)
Lemma foldl_add_bar_covers {V} (w : World V) cols (rs : list (Index * list V)) acc d :
  is_Some (acc !! d) ∨ (∃ idx row, (idx, row) ∈ rs ∧ StockHistory.date_key w idx = d) →
  is_Some (foldl (StockHistory.add_bar w cols) acc rs !! d).
Proof.
  revert acc. induction rs as [|[idx row] rs IH]; intros acc; simpl.
  - intros [H|(idx & row & Hin & _)]; [done|]. by apply elem_of_nil in Hin.
  - intros H. apply IH. unfold StockHistory.add_bar; simpl.
    destruct (decide (StockHistory.date_key w idx = d)) as [Heq|Hne].
    + left. rewrite Heq, lookup_insert_eq. by eexists.
    + rewrite lookup_insert_ne by done.
      destruct H as [H|(idx' & row' & Hin & Hd)]; [by left|].
      apply elem_of_cons in Hin as [Heq|Hin].
      * inversion Heq; subst. done.
      * right. by exists idx', row'.
Qed.


Section Series.
Context {V : Type} (w : World V).

(** C5.  When the backend's history frame has zero rows,
    [get_historical_prices] returns a [HistoricalPrices] value, not an
    error, and its [bars] mapping is empty. *)
Theorem no_rows_gives_empty_bars (s p i : string) (st en : option string)
    (tr : list call) (hist : DataFrame V) :
  yf_history w (upper s) (fst (StockHistory.request_params p i st en)) = Ok hist →
  rows hist = [] →
  ∃ r, fst (StockHistory.get_historical_prices w s p i st en tr) = Ok r ∧
       StockHistory.bars r = ∅ ∧
       StockHistory.symbol r = upper s.
Proof.
  intros Hh Hr. rewrite get_historical_prices_run, Hh. simpl.
  eexists. split; [reflexivity|]. simpl.
  unfold StockHistory.build_bars. by rewrite (df_empty_no_rows hist Hr).
Qed.



End Series.

Lemma no_rows_gives_empty_bars_witness :
  ∃ r, fst (StockHistory.get_historical_prices Sample.world "TSLA" "1y" "1d"
              None None []) = Ok r ∧
       StockHistory.bars r = ∅ ∧ StockHistory.symbol r = "TSLA".
Proof.
  apply (no_rows_gives_empty_bars Sample.world "TSLA" "1y" "1d" None None []
           Sample.frame_none); reflexivity.
Defined.



(** ** The discovery endpoint (C7) *)

Lemma append_cons c a b : String c a +:+ b = String c (a +:+ b).
Proof. reflexivity. Qed.

Lemma append_nil b : EmptyString +:+ b = b.
Proof. reflexivity. Qed.

Lemma lstrip_spec (s : text) :
  ∃ l, s = l ++ lstrip s ∧ forallb is_space l = true ∧
       starts_blank (lstrip s) = false.
Proof.
  induction s as [|c s (l & Hl & Hb & Hs)]; simpl.
  - by exists [].
  - destruct (is_space c) eqn:Hc.
    + exists (c :: l). simpl. rewrite <- Hl, Hc, Hb. done.
    + exists []. simpl. by rewrite Hc.
Qed.

Lemma rstrip_spec (s : text) :
  ∃ r, s = rstrip s ++ r ∧ forallb is_space r = true ∧
       ends_blank (rstrip s) = false.
Proof.
  induction s as [|c s (r & Hr & Hb & He)]; simpl.
  - by exists [].
  - destruct (rstrip s) as [|c' rest] eqn:Hrs.
    + simpl in Hr. subst r. destruct (is_space c) eqn:Hc.
      * exists (c :: s). simpl. by rewrite Hc, Hb.
      * exists s. simpl. by rewrite Hc.
    + exists r. simpl in *. by rewrite <- Hr.
Qed.

Lemma rstrip_keeps_start (s : text) :
  starts_blank s = false → starts_blank (rstrip s) = false.
Proof.
  destruct s as [|c s]; simpl; [done|]. intros Hc.
  destruct (rstrip s); [by rewrite Hc | done].
Qed.

(** What [strip] returns: the text between a blank prefix and a blank
    suffix, itself not beginning or ending with a blank. *)
Lemma strip_spec (s : text) :
  ∃ l r, s = l ++ strip s ++ r ∧
         forallb is_space l = true ∧ forallb is_space r = true ∧
         starts_blank (strip s) = false ∧ ends_blank (strip s) = false.
Proof.
  destruct (lstrip_spec s) as (l & Hl & Hlb & Hls).
  destruct (rstrip_spec (lstrip s)) as (r & Hr & Hrb & Hre).
  exists l, r. unfold strip. rewrite <- Hr, <- Hl.
  split; [done|]. split; [done|]. split; [done|].
  split; [by apply rstrip_keeps_start | done].
Qed.

(** C7 at a file whose existence check fails.  [exists()] is called before
    the [try]: when it raises, the endpoint raises the same error instead
    of answering without instructions.  An error while reading, which is
    inside the [try], is swallowed as the claim says. *)
Theorem wingman_endpoint_surfaces_exists_error :
  wingman_endpoint Sample.file_denied = Raise (OSError "Permission denied") ∧
  wingman_endpoint Sample.file_unreadable = Ok {[ "name" := text_of "wingman" ]}.
Proof. split; reflexivity. Qed.

(** ** The factsheet (C9) *)

Lemma length_append a b :
  String.length (a +:+ b) = (String.length a + String.length b)%nat.
Proof. induction a as [|c a IH]; [done|]. rewrite append_cons. simpl. by rewrite IH. Qed.

Lemma append_suffix_inj a b c : a +:+ c = b +:+ c → a = b.
Proof.
  revert b. induction a as [|x a IH]; intros [|y b] H.
  - done.
  - apply (f_equal String.length) in H.
    rewrite append_nil, length_append in H. simpl in H. lia.
  - apply (f_equal String.length) in H.
    rewrite append_nil, length_append in H. simpl in H. lia.
  - rewrite !append_cons in H. injection H as -> H. f_equal. by apply IH.
Qed.

Section Factsheet.
Context {V : Type} (w : World V).

(** C9.  For two valid symbols and one backend: each call makes exactly one
    request, for the fixed document address; the two outcomes agree on
    everything but the URI (the same error, or the same PDF blob and media
    type); the blob is the base64 text of the downloaded bytes; and the URI
    is [ui://data/factsheets/<symbol>.pdf], different for different
    symbols. *)
Theorem factsheet_ignores_symbol (s1 s2 : string) (tr : list call) :
  ticker_shape s1 → ticker_shape s2 →
  snd (call_get_factsheet w s1 tr) = tr ++ [HttpGet pdf_url] ∧
  snd (call_get_factsheet w s2 tr) = tr ++ [HttpGet pdf_url] ∧
  blob <$> fst (call_get_factsheet w s1 tr) = blob <$> fst (call_get_factsheet w s2 tr) ∧
  mime_type <$> fst (call_get_factsheet w s1 tr)
    = mime_type <$> fst (call_get_factsheet w s2 tr) ∧
  (∀ r1, fst (call_get_factsheet w s1 tr) = Ok r1 →
     uri r1 = "ui://data/factsheets/" +:+ s1 +:+ ".pdf" ∧
     mime_type r1 = "application/pdf" ∧
     (∃ response, http_get w pdf_url = Ok response ∧
                  blob r1 = b64encode (content response)) ∧
     ∃ r2, fst (call_get_factsheet w s2 tr) = Ok r2 ∧
           blob r2 = blob r1 ∧
           uri r2 = "ui://data/factsheets/" +:+ s2 +:+ ".pdf" ∧
           (s1 ≠ s2 → uri r1 ≠ uri r2)).
Proof.
  intros H1 H2. unfold call_get_factsheet.
  rewrite !lift_bind_run, (validate_symbol_Ok s1 H1), (validate_symbol_Ok s2 H2).
  rewrite !get_factsheet_run. simpl.
  split; [done|]. split; [done|].
  destruct (http_get w pdf_url) as [response|e]; simpl; [|done].
  destruct (raise_for_status response); simpl; [|done].
  split; [done|]. split; [done|].
  intros r1 [= <-]. simpl.
  split; [done|]. split; [done|]. split; [by exists response|].
  eexists. split; [reflexivity|]. simpl. split; [done|]. split; [done|].
  intros Hne Heq. apply Hne.
  apply (inj (String.append "ui://data/factsheets/")) in Heq.
  by apply append_suffix_inj in Heq.
Qed.

End Factsheet.

Lemma factsheet_ignores_symbol_witness :
  blob <$> fst (call_get_factsheet Sample.world "AAPL" [])
    = blob <$> fst (call_get_factsheet Sample.world "MSFT" []) ∧
  snd (call_get_factsheet Sample.world "AAPL" []) = [HttpGet pdf_url].
Proof.
  assert (ticker_shape "AAPL") as Ha by (split; [simpl; lia | reflexivity]).
  assert (ticker_shape "MSFT") as Hm by (split; [simpl; lia | reflexivity]).
  destruct (factsheet_ignores_symbol Sample.world "AAPL" "MSFT" [] Ha Hm)
    as (Ht & _ & Hb & _).
  split; [exact Hb | exact Ht].
Defined.

(** ** Fields the backend does not return (C2) *)

Lemma row_get_no_column {V} cols (row : list V) key :
  has_column cols key = false → row_get cols row key = None.
Proof.
  unfold has_column. revert row. induction cols as [|c cols IH]; intros row; [done|].
  simpl. intros H. apply orb_false_iff in H as [Hc Hrest].
  destruct row as [|v row]; [done|].
  rewrite String.eqb_sym, Hc. by apply IH.
Qed.

Lemma bar_of_row_fields {V} cols (row : list V) name key proj :
  (name, key, proj) ∈ StockHistory.bar_fields →
  proj (StockHistory.bar_of_row cols row) = row_get cols row key.
Proof.
  unfold StockHistory.bar_fields. intros H.
  repeat (apply elem_of_cons in H as [[= -> -> ->]|H]; [try done|]).
  - simpl. destruct (has_column cols "Adj Close") eqn:Hc; [done|].
    by rewrite row_get_no_column.
  - by apply elem_of_nil in H.
Qed.





Section MissingFields.
Context {V : Type} {validator : Validator V} (w : World V).


End MissingFields.



(** ** The chart of an empty history (C3) *)

Lemma dummy_stats :
  price_stats [dummy_point] =
  Ok {| latest_price := PInt 100; first_price := PInt 100;
        price_change := PInt 0; price_change_pct := PFloat (S754_zero false) |}.
Proof. reflexivity. Qed.

Lemma dummy_change_text :
  (stats ← price_stats [dummy_point]; change_text stats) = Ok "$+0.00 (+0.0%)".
Proof. vm_compute. reflexivity. Qed.

Lemma dummy_repr t :
  repr_chart_data t [dummy_point] =
  "[{'date': '2024-01-01', 'open': 100, 'high': 100, 'low': 100, 'close': 100, 'volume': 0}]".
Proof. vm_compute. reflexivity. Qed.

Section EmptyChart.
Context (w : World num) (t : Template).

(** C3, as the code has it.  When the history frame has zero rows,
    [chart_data] is exactly the one synthetic point, printed in the page as
    [{'date': '2024-01-01', 'open': 100, 'high': 100, 'low': 100,
    'close': 100, 'volume': 0}]; the Change statistic is printed with the
    currency sign and an explicit plus sign, [$+0.00 (+0.0%)]; the price is
    [$100.00], the class is positive and the number of data points is 1.
    The tool returns the base64 text of that page. *)
Theorem empty_history_chart (s chart_type p i : string) (st en : option string)
    (tr : list call) (hist : DataFrame num) :
  yf_history w (upper s) (fst (StockHistory.request_params p i st en)) = Ok hist →
  rows hist = [] →
  chart_data_of hist = Ok [dummy_point] ∧
  (stats ← price_stats [dummy_point]; change_text stats) = Ok "$+0.00 (+0.0%)" ∧
  ∃ r html,
    fst (render_stock_chart t w s chart_type p i st en tr) = Ok r ∧
    blob r = b64encode (encode_utf8 html) ∧
    uri r = "ui://data/chart/" +:+ s ∧
    mime_type r = "text/html" ∧
    html =
      html_head t +:+ upper s +:+
      html_period t +:+ snd (StockHistory.request_params p i st en) +:+
      html_price t +:+ "$" +:+ "100.00" +:+
      html_change t +:+ "positive" +:+ String dquote ">" +:+ "$+0.00 (+0.0%)" +:+
      html_points t +:+ "1" +:+
      html_data t +:+
      "[{'date': '2024-01-01', 'open': 100, 'high': 100, 'low': 100, 'close': 100, 'volume': 0}]" +:+
      html_script t +:+ chart_script t chart_type +:+
      html_tail t.
Proof.
  intros Hh Hr.
  assert (chart_data_of hist = Ok [dummy_point]) as Hd.
  { unfold chart_data_of. by rewrite (df_empty_no_rows hist Hr). }
  split; [exact Hd|]. split; [exact dummy_change_text|].
  rewrite render_stock_chart_run, Hh. simpl.
  unfold chart_document. rewrite Hd. simpl.
  change (price_stats [dummy_point]) with
    (Ok {| latest_price := PInt 100; first_price := PInt 100;
           price_change := PInt 0; price_change_pct := PFloat (S754_zero false) |}).
  simpl. unfold render_html.
  change (py_format_f false 2 (latest_price _)) with (Ok "100.00").
  change (change_text _) with (Ok "$+0.00 (+0.0%)").
  simpl. rewrite dummy_repr.
  do 2 eexists. split; [reflexivity|]. simpl. done.
Qed.

End EmptyChart.

(** C3 at the sample frame without rows: the Change statistic is not the
    text [0.00 (+0.0%)]. *)
Lemma empty_history_change_is_signed :
  rows Sample.frame_none = [] ∧
  (chart_data ← chart_data_of Sample.frame_none;
   stats ← price_stats chart_data;
   change_text stats) ≠ Ok "0.00 (+0.0%)".
Proof. split; [reflexivity|]. vm_compute. discriminate. Qed.

Lemma empty_history_chart_witness :
  chart_data_of Sample.frame_none = Ok [dummy_point] ∧
  ∃ r, fst (render_stock_chart Sample.template Sample.world "TSLA" "line" "1mo" "1d"
              None None []) = Ok r ∧
       uri r = "ui://data/chart/TSLA".
Proof.
  destruct (empty_history_chart Sample.world Sample.template "TSLA" "line" "1mo" "1d"
              None None [] Sample.frame_none eq_refl eq_refl)
    as (Hd & _ & r & html & Hr & _ & Hu & _).
  split; [exact Hd|]. exists r. split; [exact Hr | exact Hu].
Defined.

(** * Further properties of the handlers *)

(** ** Backend errors and the quote mapping *)

Section Upstream.
Context {V : Type} {validator : Validator V} (w : World V) (wc : World num) (t : Template).

(** X1.  The quote depends on the backend's mapping only through the
    fourteen keys the handler reads: two backends whose mappings agree on
    those keys give the same [StockInfo], whatever else they hold. *)
Theorem info_reads_only_listed_keys (w' : World V) (s : string) (tr : list call)
    (info info' : gmap string V) :
  yf_info w (upper s) = Ok info →
  yf_info w' (upper s) = Ok info' →
  (∀ name key proj, (name, key, proj) ∈ @StockInfo.info_fields V →
     info !! key = info' !! key) →
  StockInfo.get_stock_info w s tr = StockInfo.get_stock_info w' s tr.
Proof.
  intros Hi Hi' Hk. rewrite !get_stock_info_run, Hi, Hi', !bind_Ok.
  assert (∀ n, n < 14 → ∀ e, @StockInfo.info_fields V !! n = Some e →
            info !! e.1.2 = info' !! e.1.2)%nat as Hn.
  { intros n _ [[name key] proj] He. apply (Hk name key proj).
    by apply list_elem_of_lookup_2 in He. }
  pose proof (Hn 0%nat ltac:(lia) _ eq_refl) as H0.
  pose proof (Hn 1%nat ltac:(lia) _ eq_refl) as H1.
  pose proof (Hn 2%nat ltac:(lia) _ eq_refl) as H2.
  pose proof (Hn 3%nat ltac:(lia) _ eq_refl) as H3.
  pose proof (Hn 4%nat ltac:(lia) _ eq_refl) as H4.
  pose proof (Hn 5%nat ltac:(lia) _ eq_refl) as H5.
  pose proof (Hn 6%nat ltac:(lia) _ eq_refl) as H6.
  pose proof (Hn 7%nat ltac:(lia) _ eq_refl) as H7.
  pose proof (Hn 8%nat ltac:(lia) _ eq_refl) as H8.
  pose proof (Hn 9%nat ltac:(lia) _ eq_refl) as H9.
  pose proof (Hn 10%nat ltac:(lia) _ eq_refl) as H10.
  pose proof (Hn 11%nat ltac:(lia) _ eq_refl) as H11.
  pose proof (Hn 12%nat ltac:(lia) _ eq_refl) as H12.
  pose proof (Hn 13%nat ltac:(lia) _ eq_refl) as H13.
  simpl in H0, H1, H2, H3, H4, H5, H6, H7, H8, H9, H10, H11, H12, H13.
  by rewrite H0, H1, H2, H3, H4, H5, H6, H7, H8, H9, H10, H11, H12, H13.
Qed.

(** X2.  An exception of the backend is the tool's outcome, unchanged: no
    handler catches it, retries, or answers with data instead.  In each
    case exactly one backend call has been made. *)
Theorem backend_error_propagates (s chart_type p i : string) (st en : option string)
    (tr : list call) (e : exn) :
  (yf_info w (upper s) = Raise e →
     StockInfo.get_stock_info w s tr = (Raise e, tr ++ [TickerInfo (upper s)])) ∧
  (yf_history w (upper s) (fst (StockHistory.request_params p i st en)) = Raise e →
     StockHistory.get_historical_prices w s p i st en tr
       = (Raise e, tr ++ [TickerHistory (upper s)
                            (fst (StockHistory.request_params p i st en))])) ∧
  (yf_history wc (upper s) (fst (StockHistory.request_params p i st en)) = Raise e →
     render_stock_chart t wc s chart_type p i st en tr
       = (Raise e, tr ++ [TickerHistory (upper s)
                            (fst (StockHistory.request_params p i st en))])) ∧
  (http_get w pdf_url = Raise e →
     get_factsheet w s tr = (Raise e, tr ++ [HttpGet pdf_url])).
Proof.
  repeat split; intros H.
  - by rewrite get_stock_info_run, H.
  - by rewrite get_historical_prices_run, H.
  - by rewrite render_stock_chart_run, H.
  - by rewrite get_factsheet_run, H.
Qed.

End Upstream.

Lemma info_reads_only_listed_keys_witness :
  StockInfo.get_stock_info Sample.world "AAPL" []
    = StockInfo.get_stock_info Sample.world_extra "AAPL" [].
Proof.
  apply (info_reads_only_listed_keys Sample.world Sample.world_extra "AAPL" []
           {[ "marketCap" := PInt 3000000; "currentPrice" := PInt 100 ]}
           (<[ "website" := PInt 42 ]>
              {[ "marketCap" := PInt 3000000; "currentPrice" := PInt 100 ]}));
    [reflexivity | reflexivity |].
  intros name key proj H. unfold StockInfo.info_fields in H.
  repeat (apply elem_of_cons in H as [[= -> -> ->]|H]; [reflexivity|]).
  by apply elem_of_nil in H.
Defined.

Lemma backend_error_propagates_witness :
  StockInfo.get_stock_info Sample.world_down "AAPL" []
    = (Raise (UpstreamError "timeout"), [TickerInfo "AAPL"]).
Proof.
  apply (backend_error_propagates Sample.world_down Sample.world_down Sample.template
           "AAPL" "line" "1y" "1d" None None [] (UpstreamError "timeout")).
  reflexivity.
Defined.

(** ** The bars mapping of [get_historical_prices] *)

Lemma foldl_add_bar_other {V} (w : World V) cols (rs : list (Index * list V)) acc d :
  (∀ r, r ∈ rs → StockHistory.date_key w r.1 ≠ d) →
  foldl (StockHistory.add_bar w cols) acc rs !! d = acc !! d.
Proof.
  revert acc. induction rs as [|r rs IH]; intros acc Hne; simpl; [done|].
  rewrite IH by (intros r' Hr'; apply Hne; by apply list_elem_of_further).
  unfold StockHistory.add_bar. apply lookup_insert_ne.
  apply Hne, list_elem_of_here.
Qed.

Lemma foldl_add_bar_size {V} (w : World V) cols (rs : list (Index * list V)) acc :
  (size (foldl (StockHistory.add_bar w cols) acc rs) ≤ size acc + length rs)%nat.
Proof.
  revert acc. induction rs as [|r rs IH]; intros acc; simpl; [lia|].
  etrans; [apply IH|]. unfold StockHistory.add_bar.
  rewrite map_size_insert. destruct (acc !! _); unfold id; simpl; lia.
Qed.

Lemma foldl_add_bar_size_distinct {V} (w : World V) cols (rs : list (Index * list V)) acc :
  NoDup (StockHistory.date_key w ∘ fst <$> rs) →
  (∀ r, r ∈ rs → acc !! StockHistory.date_key w r.1 = None) →
  size (foldl (StockHistory.add_bar w cols) acc rs) = (size acc + length rs)%nat.
Proof.
  revert acc. induction rs as [|r rs IH]; intros acc Hnd Hfresh; simpl; [lia|].
  rewrite fmap_cons in Hnd. apply NoDup_cons in Hnd as [Hr Hnd].
  rewrite IH; [|done|].
  - unfold StockHistory.add_bar.
    rewrite map_size_insert_None; [lia|]. apply Hfresh, list_elem_of_here.
  - intros r' Hr'. unfold StockHistory.add_bar.
    rewrite lookup_insert_ne; [apply Hfresh; by apply list_elem_of_further|].
    intros Heq. apply Hr.
    replace ((StockHistory.date_key w ∘ fst) r)
      with ((StockHistory.date_key w ∘ fst) r') by (symmetry; exact Heq).
    apply (list_elem_of_fmap_2 (StockHistory.date_key w ∘ fst) rs r' Hr').
Qed.

Lemma foldl_add_bar_same_key {V} (w : World V) cols (rs : list (Index * list V))
    acc d r :
  (acc = ∅ ∨ ∃ b, acc = {[ d := b ]}) →
  (∀ r', r' ∈ rs → StockHistory.date_key w r'.1 = d) →
  last rs = Some r →
  foldl (StockHistory.add_bar w cols) acc rs
    = {[ d := StockHistory.bar_of_row cols r.2 ]}.
Proof.
  revert acc. induction rs as [|r1 rs IH]; intros acc Hacc Hd Hl; [done|].
  simpl.
  assert (StockHistory.add_bar w cols acc r1
            = {[ d := StockHistory.bar_of_row cols r1.2 ]}) as Hstep.
  { unfold StockHistory.add_bar. rewrite (Hd r1) by apply list_elem_of_here.
    destruct Hacc as [->|[b ->]];
      [apply insert_empty | apply insert_singleton_eq]. }
  destruct rs as [|r2 rs].
  - simpl in *. inversion Hl; subst. exact Hstep.
  - apply IH.
    + right. eexists. exact Hstep.
    + intros r' Hr'. apply Hd. by apply list_elem_of_further.
    + by rewrite last_cons_cons in Hl.
Qed.

Lemma row_get_Some_iff {V} cols (row : list V) key :
  length row = length cols →
  is_Some (row_get cols row key) ↔ has_column cols key = true.
Proof.
  unfold has_column. revert row.
  induction cols as [|c cols IH]; intros [|v row] Hlen; simpl in *.
  - split; [intros [x Hx]; discriminate Hx | discriminate].
  - discriminate Hlen.
  - discriminate Hlen.
  - rewrite (String.eqb_sym key c). destruct (String.eqb c key); simpl.
    + split; [reflexivity | intros _; by eexists].
    + apply IH. lia.
Qed.

Section Bars.
Context {V : Type} (w : World V).

(** X3.  When several rows have the same date, the row that comes last in
    the frame is the one whose bar is kept under that date. *)
Theorem later_row_overwrites_same_date (hist : DataFrame V)
    (before after : list (Index * list V)) (idx : Index) (row : list V) :
  df_empty hist = false →
  rows hist = before ++ (idx, row) :: after →
  (∀ r, r ∈ after → StockHistory.date_key w r.1 ≠ StockHistory.date_key w idx) →
  StockHistory.build_bars w hist !! StockHistory.date_key w idx
    = Some (StockHistory.bar_of_row (columns hist) row).
Proof.
  intros He Hr Hafter. unfold StockHistory.build_bars. rewrite He, Hr.
  rewrite foldl_app. simpl. rewrite foldl_add_bar_other by done.
  unfold StockHistory.add_bar. simpl. apply lookup_insert_eq.
Qed.

(** X4.  There are never more bars than rows, and exactly as many when the
    rows of a non-empty frame have pairwise different dates. *)
Theorem bars_count_bounded_by_rows (hist : DataFrame V) :
  (size (StockHistory.build_bars w hist) ≤ length (rows hist))%nat ∧
  (df_empty hist = false →
   NoDup (StockHistory.date_key w ∘ fst <$> rows hist) →
   size (StockHistory.build_bars w hist) = length (rows hist)).
Proof.
  unfold StockHistory.build_bars. split.
  - destruct (df_empty hist).
    + rewrite map_size_empty. lia.
    + etrans; [apply foldl_add_bar_size|]. rewrite map_size_empty. lia.
  - intros -> Hnd. rewrite foldl_add_bar_size_distinct; [|done|].
    + by rewrite map_size_empty.
    + intros r _. apply lookup_empty.
Qed.

(** X5.  Rows that all fall on one date (an intraday interval within one
    day) collapse into a single bar, the one of the last row. *)
Theorem same_day_rows_collapse (hist : DataFrame V) (d : date) (r : Index * list V) :
  df_empty hist = false →
  (∀ r', r' ∈ rows hist → StockHistory.date_key w r'.1 = d) →
  last (rows hist) = Some r →
  StockHistory.build_bars w hist
    = {[ d := StockHistory.bar_of_row (columns hist) r.2 ]}.
Proof.
  intros He Hd Hl. unfold StockHistory.build_bars. rewrite He.
  apply foldl_add_bar_same_key; [by left | done | done].
Qed.

(** X6.  The bars mapping is empty exactly when the frame is empty in the
    pandas sense: no rows, or no columns. *)
Theorem bars_empty_iff_frame_empty (hist : DataFrame V) :
  StockHistory.build_bars w hist = ∅ ↔ df_empty hist = true.
Proof.
  unfold StockHistory.build_bars. destruct (df_empty hist) eqn:He; [done|].
  split; [|done]. intros Hb. exfalso.
  assert (∃ idx row rs, rows hist = (idx, row) :: rs) as (idx & row & rs & Hr).
  { unfold df_empty in He. destruct (columns hist); [done|].
    destruct (rows hist) as [|[idx row] rs]; [done|]. by exists idx, row, rs. }
  assert (is_Some (foldl (StockHistory.add_bar w (columns hist)) ∅ (rows hist)
                     !! StockHistory.date_key w idx)) as [b Hsome].
  { apply foldl_add_bar_covers. right. exists idx, row.
    split; [rewrite Hr; apply list_elem_of_here | done]. }
  rewrite Hb, lookup_empty in Hsome. done.
Qed.

(** X7.  In a row with one cell per column, a bar field is [None] exactly
    when the frame has no column of that field's label; this holds for
    [adj_close] like for the other five. *)
Theorem bar_field_none_iff_column_absent (cols : list string) (row : list V)
    (name key : string) (proj : StockHistory.HistoricalBar V → option V) :
  (name, key, proj) ∈ @StockHistory.bar_fields V →
  length row = length cols →
  proj (StockHistory.bar_of_row cols row) = None ↔ has_column cols key = false.
Proof.
  intros Hf Hlen. rewrite (bar_of_row_fields cols row name key proj Hf).
  pose proof (row_get_Some_iff cols row key Hlen) as Hiff.
  destruct (row_get cols row key) eqn:Hg, (has_column cols key) eqn:Hc; try done.
  - exfalso. assert (is_Some (Some v)) as Hs by eauto.
    apply Hiff in Hs. done.
  - exfalso. destruct (proj2 Hiff eq_refl) as [? ?]. done.
Qed.

End Bars.

Lemma later_row_overwrites_same_date_witness :
  StockHistory.build_bars Sample.world Sample.frame_intraday !! (2024, 8, 9)
    = Some (StockHistory.bar_of_row ["Close"; "Volume"] [PFloat Sample.f101; PInt 7]).
Proof.
  apply (later_row_overwrites_same_date Sample.world Sample.frame_intraday
           [(Sample.intraday (2024, 8, 9) "2024-08-09" "09:30:00",
             [PFloat Sample.f100; PInt 5])]
           []
           (Sample.intraday (2024, 8, 9) "2024-08-09" "09:31:00")
           [PFloat Sample.f101; PInt 7]).
  - reflexivity.
  - reflexivity.
  - intros r Hr. by apply elem_of_nil in Hr.
Defined.

Lemma bars_count_bounded_by_rows_witness :
  size (StockHistory.build_bars Sample.world Sample.frame_adjusted) = 2%nat.
Proof.
  apply (bars_count_bounded_by_rows Sample.world Sample.frame_adjusted).
  - reflexivity.
  - simpl. apply NoDup_cons. split.
    + intros H. apply list_elem_of_singleton in H. discriminate H.
    + apply NoDup_singleton.
Defined.

Lemma same_day_rows_collapse_witness :
  size (StockHistory.build_bars Sample.world Sample.frame_intraday) = 1%nat.
Proof.
  rewrite (same_day_rows_collapse Sample.world Sample.frame_intraday (2024, 8, 9)
             (Sample.intraday (2024, 8, 9) "2024-08-09" "09:31:00",
              [PFloat Sample.f101; PInt 7])).
  - apply map_size_singleton.
  - reflexivity.
  - intros r' Hr'. simpl in Hr'.
    apply elem_of_cons in Hr' as [->|Hr']; [reflexivity|].
    apply list_elem_of_singleton in Hr' as ->. reflexivity.
  - reflexivity.
Defined.

Lemma bar_field_none_iff_column_absent_witness :
  StockHistory.adj_close
    (StockHistory.bar_of_row ["Close"; "Volume"] [PFloat Sample.f100; PInt 7]) = None.
Proof.
  apply (bar_field_none_iff_column_absent ["Close"; "Volume"]
           [PFloat Sample.f100; PInt 7] "adj_close" "Adj Close" StockHistory.adj_close).
  - unfold StockHistory.bar_fields. do 4 apply list_elem_of_further.
    apply list_elem_of_here.
  - reflexivity.
  - reflexivity.
Defined.

(** ** The chart of a non-empty history *)

Lemma point_of_row_Ok cols r pt :
  point_of_row cols r = Ok pt →
  p_date pt = date_text r ∧
  (∃ c, py_float (cell_or_zero cols r.2 "Close") = Ok c ∧ p_close pt = PFloat c) ∧
  (∃ v, py_int (cell_or_zero cols r.2 "Volume") = Ok v ∧ p_volume pt = v).
Proof.
  unfold point_of_row.
  destruct (py_float (cell_or_zero cols r.2 "Open")); simpl; [|done].
  destruct (py_float (cell_or_zero cols r.2 "High")); simpl; [|done].
  destruct (py_float (cell_or_zero cols r.2 "Low")); simpl; [|done].
  destruct (py_float (cell_or_zero cols r.2 "Close")) as [c|]; simpl; [|done].
  destruct (py_int (cell_or_zero cols r.2 "Volume")) as [v|]; simpl; [|done].
  intros [= <-]. simpl.
  split; [reflexivity|]. split; eexists; split; reflexivity.
Qed.

Lemma points_of_rows_Ok cols rs data :
  points_of_rows cols rs = Ok data →
  Forall2 (λ r pt, point_of_row cols r = Ok pt) rs data.
Proof.
  revert data. induction rs as [|r rs IH]; intros data; simpl.
  - intros [= <-]. constructor.
  - destruct (point_of_row cols r) as [pt|] eqn:Hp; simpl; [|done].
    destruct (points_of_rows cols rs) as [pts|]; simpl; [|done].
    intros [= <-]. constructor; [exact Hp | by apply IH].
Qed.

Lemma points_of_rows_Raise cols rs r e :
  r ∈ rs → point_of_row cols r = Raise e → ∃ e', points_of_rows cols rs = Raise e'.
Proof.
  intros Hin Hr. induction rs as [|r' rs IH]; [by apply elem_of_nil in Hin|].
  simpl. apply elem_of_cons in Hin as [<-|Hin].
  - rewrite Hr. simpl. eauto.
  - destruct (point_of_row cols r'); simpl; [|eauto].
    destruct (IH Hin) as [e' ->]. simpl. eauto.
Qed.

Lemma points_of_rows_plain cols rs :
  forallb (plain_row cols) rs = true → ∃ data, points_of_rows cols rs = Ok data.
Proof.
  induction rs as [|r rs IH]; simpl; [eauto|].
  intros H. apply andb_true_iff in H as [Hr Hrs].
  destruct (IH Hrs) as [data Hd]. rewrite Hd.
  unfold plain_row in Hr. repeat (apply andb_true_iff in Hr as [Hr ?]).
  unfold point_of_row, cell_or_zero.
  destruct (row_get cols r.2 "Open") as [[|]|]; try done;
  destruct (row_get cols r.2 "High") as [[|]|]; try done;
  destruct (row_get cols r.2 "Low") as [[|]|]; try done;
  destruct (row_get cols r.2 "Close") as [[|]|]; try done;
  destruct (row_get cols r.2 "Volume") as [[z|[sg|sg| |sg m e]]|]; try done;
  simpl; eauto.
Qed.

Lemma chart_data_of_nonempty (hist : DataFrame num) data :
  df_empty hist = false →
  chart_data_of hist = Ok data →
  points_of_rows (columns hist) (rows hist) = Ok data ∧ data ≠ [].
Proof.
  unfold chart_data_of. intros He. rewrite He.
  destruct (points_of_rows (columns hist) (rows hist)) as [pts|] eqn:Hp;
    simpl; [|done].
  apply points_of_rows_Ok in Hp as HF.
  unfold df_empty in He.
  destruct (columns hist); [done|]. destruct (rows hist); [done|].
  inversion HF; subst. by intros [= <-].
Qed.

Lemma float_of_Z_no_zero_division z e : float_of_Z z = Raise e → e ≠ ZeroDivisionError.
Proof.
  unfold float_of_Z. destruct (binary_normalize prec emax z 0 false); try done.
  by intros [= <-].
Qed.

Lemma py_float_no_zero_division x e : py_float x = Raise e → e ≠ ZeroDivisionError.
Proof. destruct x; simpl; [apply float_of_Z_no_zero_division | done]. Qed.

Lemma float_pair_no_zero_division {A} a b (k : spec_float → spec_float → A) e :
  (fa ← py_float a; fb ← py_float b; Ok (k fa fb)) = Raise e → e ≠ ZeroDivisionError.
Proof.
  destruct (py_float a) as [fa|ea] eqn:Ha; simpl.
  - destruct (py_float b) as [fb|eb] eqn:Hb; simpl; [done|].
    intros [= <-]. by apply py_float_no_zero_division in Hb.
  - intros [= <-]. by apply py_float_no_zero_division in Ha.
Qed.

Lemma py_sub_no_zero_division a b e : py_sub a b = Raise e → e ≠ ZeroDivisionError.
Proof.
  unfold py_sub. destruct a, b; try done; apply float_pair_no_zero_division.
Qed.

Lemma py_mul_no_zero_division a b e : py_mul a b = Raise e → e ≠ ZeroDivisionError.
Proof.
  unfold py_mul. destruct a, b; try done; apply float_pair_no_zero_division.
Qed.

Lemma int_truediv_guarded x y e :
  y ≠ 0 → int_truediv x y = Raise e → e ≠ ZeroDivisionError.
Proof.
  unfold int_truediv. intros Hy.
  destruct y as [|y|y]; [done| |]; destruct x as [|x|x]; try done;
    (destruct (SFdiv _ _ _ _); try done; by intros [= <-]).
Qed.

Lemma py_truediv_guarded a b e :
  is_zero b = false → py_truediv a b = Raise e → e ≠ ZeroDivisionError.
Proof.
  unfold py_truediv. intros Hz. rewrite Hz.
  destruct a as [x|fa], b as [y|fb]; try apply float_pair_no_zero_division.
  simpl in Hz. apply Z.eqb_neq in Hz.
  destruct (int_truediv x y) as [q|e'] eqn:Hq; [done|].
  intros [= <-]. by apply int_truediv_guarded in Hq.
Qed.

Lemma price_stats_floats data :
  data ≠ [] →
  Forall (λ pt, is_float (p_close pt) = true) data →
  ∃ stats, price_stats data = Ok stats ∧
           is_float (latest_price stats) = true ∧
           is_float (price_change stats) = true ∧
           (is_float (price_change_pct stats) = true ∨ price_change_pct stats = PInt 0).
Proof.
  intros Hne HF. unfold price_stats.
  destruct (last data) as [l|] eqn:Hl; [|by apply last_None in Hl].
  destruct (head data) as [f|] eqn:Hf; [|by apply head_None in Hf].
  assert (is_float (p_close l) = true) as Hlf.
  { apply last_Some_elem_of in Hl. by eapply Forall_forall in HF. }
  assert (is_float (p_close f) = true) as Hff.
  { apply head_Some_elem_of in Hf. by eapply Forall_forall in HF. }
  simpl. destruct (p_close l) as [|a]; [done|]. destruct (p_close f) as [|b]; [done|].
  destruct b as [sb|sb| |sb mb eb]; simpl;
    (eexists; split; [reflexivity|]; simpl; auto).
Qed.

Lemma render_html_Ok t s ct ap data stats :
  is_float (latest_price stats) = true →
  is_float (price_change stats) = true →
  (is_float (price_change_pct stats) = true ∨ price_change_pct stats = PInt 0) →
  ∃ html, render_html t s ct ap data stats = Ok html.
Proof.
  intros H1 H2 H3. unfold render_html, change_text, py_format_f.
  destruct (latest_price stats) as [|a]; [done|].
  destruct (price_change stats) as [|b]; [done|].
  destruct H3 as [H3| ->].
  - destruct (price_change_pct stats) as [|c]; [done|]. simpl. eauto.
  - simpl. eauto.
Qed.

Lemma rbind_Raise {A B} (r : result A) (k : A → result B) e :
  r ≫= k = Raise e → r = Raise e ∨ ∃ a, r = Ok a ∧ k a = Raise e.
Proof. destruct r as [a|e']; simpl; [intros H; right; eauto | intros [= ->]; by left]. Qed.

Lemma rbind_Ok {A B} (r : result A) (k : A → result B) b :
  r ≫= k = Ok b → ∃ a, r = Ok a ∧ k a = Ok b.
Proof. destruct r as [a|e']; simpl; [eauto | done]. Qed.

Lemma point_of_row_volume_Raise cols r e :
  py_int (cell_or_zero cols r.2 "Volume") = Raise e →
  ∃ e', point_of_row cols r = Raise e'.
Proof.
  intros Hv. unfold point_of_row.
  destruct (py_float (cell_or_zero cols r.2 "Open")); simpl; [|eauto].
  destruct (py_float (cell_or_zero cols r.2 "High")); simpl; [|eauto].
  destruct (py_float (cell_or_zero cols r.2 "Low")); simpl; [|eauto].
  destruct (py_float (cell_or_zero cols r.2 "Close")); simpl; [|eauto].
  rewrite Hv. simpl. eauto.
Qed.

Lemma chart_document_empty t s ct ap (hist : DataFrame num) :
  df_empty hist = true → ∃ html, chart_document t s ct ap hist = Ok html.
Proof.
  intros He. unfold chart_document, chart_data_of. rewrite He. simpl.
  change (price_stats [dummy_point]) with
    (Ok {| latest_price := PInt 100; first_price := PInt 100;
           price_change := PInt 0; price_change_pct := PFloat (S754_zero false) |}).
  simpl. unfold render_html.
  change (py_format_f false 2 (latest_price _)) with (Ok "100.00").
  change (change_text _) with (Ok "$+0.00 (+0.0%)").
  simpl. eauto.
Qed.

Lemma SFsub_diag_finite s m e :
  SFsub prec emax (S754_finite s m e) (S754_finite s m e) = S754_zero false.
Proof. unfold SFsub. cbv zeta. by rewrite Z.sub_diag. Qed.

Lemma py_sub_floats a b :
  py_sub (PFloat a) (PFloat b) = Ok (PFloat (SFsub prec emax a b)).
Proof. reflexivity. Qed.

Lemma single_point_change pt m e :
  p_close pt = PFloat (S754_finite false m e) →
  (stats ← price_stats [pt]; change_text stats) = Ok "$+0.00 (+0.0%)".
Proof.
  intros Hcl. unfold price_stats.
  change (last [pt]) with (Some pt). change (head [pt]) with (Some pt).
  cbn [fmap option_fmap option_map from_option]. rewrite Hcl.
  cbn [mbind result_bind rbind].
  rewrite !py_sub_floats, !SFsub_diag_finite. reflexivity.
Qed.

Lemma single_point_change_zero pt sg :
  p_close pt = PFloat (S754_zero sg) →
  (stats ← price_stats [pt]; change_text stats) = Ok "$+0.00 (+0.0%)".
Proof.
  intros Hcl. unfold price_stats.
  change (last [pt]) with (Some pt). change (head [pt]) with (Some pt).
  cbn [fmap option_fmap option_map from_option]. rewrite Hcl.
  by destruct sg.
Qed.

Lemma ascii_lower_upper_char c :
  ascii_lower_char (upper_char c) = ascii_lower_char c.
Proof. destruct c as [[] [] [] [] [] [] [] []]; reflexivity. Qed.

Lemma ascii_lower_lower_char c :
  ascii_lower_char (ascii_lower_char c) = ascii_lower_char c.
Proof. destruct c as [[] [] [] [] [] [] [] []]; reflexivity. Qed.

Lemma ascii_lower_upper s : ascii_lower (upper s) = ascii_lower s.
Proof.
  induction s as [|c s IH]; simpl; [done|]. by rewrite ascii_lower_upper_char, IH.
Qed.

Lemma ascii_lower_lower s : ascii_lower (ascii_lower s) = ascii_lower s.
Proof.
  induction s as [|c s IH]; simpl; [done|]. by rewrite ascii_lower_lower_char, IH.
Qed.

Lemma upper_char_ascii c : is_ascii c = true → is_ascii (upper_char c) = true.
Proof. destruct c as [[] [] [] [] [] [] [] []]; vm_compute; intros; congruence. Qed.

Lemma ascii_lower_char_ascii c : is_ascii c = true → is_ascii (ascii_lower_char c) = true.
Proof. destruct c as [[] [] [] [] [] [] [] []]; vm_compute; intros; congruence. Qed.

Lemma upper_ascii s : all_chars is_ascii s = true → all_chars is_ascii (upper s) = true.
Proof.
  induction s as [|c s IH]; simpl; [done|]. intros Hs.
  apply andb_true_iff in Hs as [Hc Hs]. by rewrite (upper_char_ascii c Hc), IH.
Qed.

Lemma ascii_lower_ascii s :
  all_chars is_ascii s = true → all_chars is_ascii (ascii_lower s) = true.
Proof.
  induction s as [|c s IH]; simpl; [done|]. intros Hs.
  apply andb_true_iff in Hs as [Hc Hs]. by rewrite (ascii_lower_char_ascii c Hc), IH.
Qed.

Lemma chart_data_of_plain (hist : DataFrame num) :
  df_empty hist = false →
  forallb (plain_row (columns hist)) (rows hist) = true →
  ∃ data, chart_data_of hist = Ok data.
Proof.
  intros He Hplain. destruct (points_of_rows_plain _ _ Hplain) as [data Hp].
  exists data. unfold chart_data_of. rewrite He, Hp. simpl.
  apply points_of_rows_Ok in Hp. unfold df_empty in He.
  destruct (columns hist); [done|]. destruct (rows hist); [done|].
  by inversion Hp.
Qed.

Lemma chart_data_rows (hist : DataFrame num) (data : list Point) :
  df_empty hist = false →
  chart_data_of hist = Ok data →
  length data = length (rows hist) ∧
  Forall2 (λ r pt, p_date pt = date_text r ∧ is_float (p_close pt) = true ∧
                   point_of_row (columns hist) r = Ok pt)
          (rows hist) data.
Proof.
  intros He Hd. destruct (chart_data_of_nonempty hist data He Hd) as [Hp _].
  apply points_of_rows_Ok in Hp. split.
  - symmetry. by eapply Forall2_length.
  - eapply Forall2_impl; [exact Hp|]. simpl. intros r pt Hr.
    destruct (point_of_row_Ok _ _ _ Hr) as (Hdate & (c & _ & Hc) & _).
    split; [done|]. split; [by rewrite Hc | done].
Qed.

Section Chart.
Context (w : World num) (t : Template).

(** X8.  For a non-empty frame that converts, the chart has one point per
    row, in row order: each point carries its row's date text and a float
    close. *)
Theorem chart_points_follow_rows (hist : DataFrame num) (data : list Point) :
  df_empty hist = false →
  chart_data_of hist = Ok data →
  length data = length (rows hist) ∧
  Forall2 (λ r pt, p_date pt = date_text r ∧ is_float (p_close pt) = true ∧
                   point_of_row (columns hist) r = Ok pt)
          (rows hist) data.
Proof. apply chart_data_rows. Qed.

(** X9.  A row whose Volume cell is NaN or an infinity makes the whole
    chart call fail with an exception, after the one backend request; no
    page is produced. *)
Theorem unconvertible_volume_fails_chart (s chart_type p i : string)
    (st en : option string) (tr : list call) (hist : DataFrame num)
    (idx : Index) (row : list num) (f : spec_float) :
  yf_history w (upper s) (fst (StockHistory.request_params p i st en)) = Ok hist →
  df_empty hist = false →
  (idx, row) ∈ rows hist →
  row_get (columns hist) row "Volume" = Some (PFloat f) →
  f = S754_nan ∨ (∃ sg, f = S754_infinity sg) →
  ∃ e, render_stock_chart t w s chart_type p i st en tr
         = (Raise e, tr ++ [TickerHistory (upper s)
                              (fst (StockHistory.request_params p i st en))]).
Proof.
  intros Hh He Hin Hv Hf. rewrite render_stock_chart_run, Hh. simpl.
  assert (∃ e, py_int (cell_or_zero (columns hist) row "Volume") = Raise e) as [e0 Hi].
  { unfold cell_or_zero. rewrite Hv. simpl.
    destruct Hf as [->|[sg ->]]; simpl; eauto. }
  destruct (point_of_row_volume_Raise (columns hist) (idx, row) e0 Hi) as [e1 Hp].
  destruct (points_of_rows_Raise _ _ _ _ Hin Hp) as [e2 Hps].
  unfold chart_document, chart_data_of. rewrite He, Hps. simpl. eauto.
Qed.

(** X10.  When every price cell that is present is a float and every
    Volume cell is an int or a finite float, the chart call returns a page;
    NaN prices, missing columns and an empty frame do not make it fail. *)
Theorem chart_renders_plain_frames (s chart_type p i : string)
    (st en : option string) (tr : list call) (hist : DataFrame num) :
  yf_history w (upper s) (fst (StockHistory.request_params p i st en)) = Ok hist →
  forallb (plain_row (columns hist)) (rows hist) = true →
  ∃ r, fst (render_stock_chart t w s chart_type p i st en tr) = Ok r ∧
       uri r = "ui://data/chart/" +:+ s ∧ mime_type r = "text/html".
Proof.
  intros Hh Hplain. rewrite render_stock_chart_run, Hh. simpl.
  assert (∃ html, chart_document t s chart_type
                    (StockHistory.request_params p i st en).2 hist = Ok html)
    as [html ->]; [|simpl; eauto].
  destruct (df_empty hist) eqn:He; [by apply chart_document_empty|].
  destruct (points_of_rows_plain _ _ Hplain) as [data Hp].
  assert (chart_data_of hist = Ok data) as Hd.
  { unfold chart_data_of. rewrite He, Hp. simpl.
    apply points_of_rows_Ok in Hp. unfold df_empty in He.
    destruct (columns hist); [done|]. destruct (rows hist); [done|].
    by inversion Hp. }
  destruct (chart_data_rows hist data He Hd) as [_ HF].
  destruct (chart_data_of_nonempty hist data He Hd) as [_ Hne].
  assert (Forall (λ pt, is_float (p_close pt) = true) data) as Hfl.
  { clear -HF. induction HF as [|r pt rs pts (_ & Hc & _) _ IH]; constructor; done. }
  destruct (price_stats_floats data Hne Hfl) as (stats & Hs & H1 & H2 & H3).
  destruct (render_html_Ok t s chart_type (StockHistory.request_params p i st en).2
              data stats H1 H2 H3) as [html Hr].
  exists html. unfold chart_document. rewrite Hd. simpl. rewrite Hs. simpl. exact Hr.
Qed.

(** X11.  The statistics never fail with a division by zero, whatever the
    data; when the first close is zero the percentage is the int 0. *)
Theorem price_stats_never_divides_by_zero (data : list Point) :
  price_stats data ≠ Raise ZeroDivisionError ∧
  (∀ pt rest stats, data = pt :: rest → is_zero (p_close pt) = true →
     price_stats data = Ok stats → price_change_pct stats = PInt 0).
Proof.
  split.
  - unfold price_stats. intros H.
    apply rbind_Raise in H as [H|(latest & _ & H)].
    { by destruct (p_close <$> last data). }
    apply rbind_Raise in H as [H|(first & _ & H)].
    { by destruct (p_close <$> head data). }
    apply rbind_Raise in H as [H|(change & _ & H)].
    { by apply py_sub_no_zero_division in H. }
    apply rbind_Raise in H as [H|(pct & _ & H)]; [|done].
    destruct (negb (is_zero first)) eqn:Hz; [|done].
    apply negb_true_iff in Hz.
    apply rbind_Raise in H as [H|(d & _ & H)].
    { by apply py_sub_no_zero_division in H. }
    apply rbind_Raise in H as [H|(q & _ & H)].
    { by apply py_truediv_guarded in H. }
    by apply py_mul_no_zero_division in H.
  - intros pt rest stats -> Hz. unfold price_stats. intros H.
    apply rbind_Ok in H as (latest & _ & H).
    apply rbind_Ok in H as (first & Hf & H).
    simpl in Hf. injection Hf as <-.
    apply rbind_Ok in H as (change & _ & H).
    rewrite Hz in H. simpl in H. by injection H as <-.
Qed.

(** X12.  A history of exactly one row whose price cells are floats, whose
    Volume is an int or a finite float, and whose close is zero or a
    positive finite float gives a chart with one data point and the Change
    statistic [$+0.00 (+0.0%)]. *)
Theorem single_row_chart_shows_no_change (hist : DataFrame num) (idx : Index)
    (row : list num) (f : spec_float) :
  columns hist ≠ [] →
  rows hist = [(idx, row)] →
  plain_row (columns hist) (idx, row) = true →
  row_get (columns hist) row "Close" = Some (PFloat f) →
  nonneg_finite f = true →
  ∃ data,
    chart_data_of hist = Ok data ∧
    length data = 1%nat ∧
    (stats ← price_stats data; change_text stats) = Ok "$+0.00 (+0.0%)".
Proof.
  intros Hc Hr Hplain Hclose Hf.
  assert (df_empty hist = false) as He.
  { unfold df_empty. rewrite Hr. by destruct (columns hist). }
  destruct (chart_data_of_plain hist He) as [data Hd].
  { rewrite Hr. simpl. by rewrite Hplain. }
  exists data. split; [exact Hd|].
  destruct (chart_data_rows hist data He Hd) as [Hlen HF].
  rewrite Hr in Hlen, HF. split; [exact Hlen|].
  inversion HF as [|r pt rs pts (_ & _ & Hpt) Hrest]; subst.
  inversion Hrest; subst. clear HF Hrest.
  destruct (point_of_row_Ok _ _ _ Hpt) as (_ & (c & Hpc & Hcl) & _).
  unfold cell_or_zero in Hpc. simpl in Hpc. rewrite Hclose in Hpc.
  simpl in Hpc. injection Hpc as <-.
  destruct f as [sg|sg| |sg m e]; try done.
  - by apply (single_point_change_zero pt sg).
  - destruct sg; [done|]. by apply (single_point_change pt m e).
Qed.

(** X13.  Given that the interpreter's [str.lower] lowercases ASCII text
    letter by letter, the drawing script of an ASCII chart type is chosen
    without regard to letter case; and any chart type whose lowercase form
    is neither line nor candlestick gets the area script. *)
Theorem chart_type_is_case_blind (chart_type : string) :
  (∀ s, all_chars is_ascii s = true → str_lower t s = ascii_lower s) →
  (all_chars is_ascii chart_type = true →
     chart_script t (upper chart_type) = chart_script t chart_type ∧
     chart_script t (ascii_lower chart_type) = chart_script t chart_type) ∧
  (str_lower t chart_type ≠ "line" → str_lower t chart_type ≠ "candlestick" →
     chart_script t chart_type = script_area t).
Proof.
  intros Hlow. unfold chart_script. split.
  - intros Ha.
    rewrite (Hlow _ (upper_ascii _ Ha)), (Hlow _ (ascii_lower_ascii _ Ha)), (Hlow _ Ha).
    by rewrite ascii_lower_upper, ascii_lower_lower.
  - intros Hl Hc. apply String.eqb_neq in Hl, Hc. by rewrite Hl, Hc.
Qed.

End Chart.

Lemma chart_points_follow_rows_witness :
  ∃ data, chart_data_of Sample.frame_adjusted = Ok data ∧ length data = 2%nat.
Proof.
  destruct (chart_data_of Sample.frame_adjusted) as [data|e] eqn:Hd;
    [|vm_compute in Hd; discriminate Hd].
  exists data. split; [reflexivity|].
  apply (chart_points_follow_rows Sample.frame_adjusted data eq_refl Hd).
Defined.

Lemma unconvertible_volume_fails_chart_witness :
  ∃ e, render_stock_chart Sample.template Sample.world_down "NAN" "line" "1mo" "1d"
         None None []
       = (Raise e, [TickerHistory "NAN" {[ "period" := Some "1mo"; "interval" := Some "1d" ]}]).
Proof.
  apply (unconvertible_volume_fails_chart Sample.world_down Sample.template
           "NAN" "line" "1mo" "1d" None None [] Sample.frame_nan_volume
           (Sample.timestamp (2024, 8, 9) "2024-08-09")
           [PFloat Sample.f100; PFloat S754_nan] S754_nan).
  - reflexivity.
  - reflexivity.
  - apply list_elem_of_here.
  - reflexivity.
  - left. reflexivity.
Defined.

Lemma chart_renders_plain_frames_witness :
  ∃ r, fst (render_stock_chart Sample.template Sample.world "MSFT" "area" "1mo" "1d"
              None None []) = Ok r ∧
       uri r = "ui://data/chart/MSFT" ∧ mime_type r = "text/html".
Proof.
  apply (chart_renders_plain_frames Sample.world Sample.template
           "MSFT" "area" "1mo" "1d" None None [] Sample.frame_close_only);
    reflexivity.
Defined.

Lemma price_stats_never_divides_by_zero_witness :
  ∃ stats,
    price_stats [ {| p_date := "2024-08-09";
                     p_open := PFloat (S754_zero false);
                     p_high := PFloat (S754_zero false);
                     p_low := PFloat (S754_zero false);
                     p_close := PFloat (S754_zero false);
                     p_volume := 0 |} ] = Ok stats ∧
    price_change_pct stats = PInt 0.
Proof.
  eexists. split; [reflexivity|].
  eapply (proj2 (price_stats_never_divides_by_zero _)
            {| p_date := "2024-08-09";
               p_open := PFloat (S754_zero false);
               p_high := PFloat (S754_zero false);
               p_low := PFloat (S754_zero false);
               p_close := PFloat (S754_zero false);
               p_volume := 0 |} []); reflexivity.
Defined.

Lemma single_row_chart_shows_no_change_witness :
  ∃ data, chart_data_of Sample.frame_one_row = Ok data ∧
          length data = 1%nat ∧
          (stats ← price_stats data; change_text stats) = Ok "$+0.00 (+0.0%)".
Proof.
  apply (single_row_chart_shows_no_change Sample.frame_one_row
           (Sample.timestamp (2024, 8, 9) "2024-08-09")
           [PFloat Sample.f100; PFloat Sample.f101; PFloat Sample.f100]
           Sample.f101).
  - discriminate.
  - reflexivity.
  - reflexivity.
  - reflexivity.
  - reflexivity.
Defined.

Lemma chart_type_is_case_blind_witness :
  chart_script Sample.template "LINE" = chart_script Sample.template "line" ∧
  chart_script Sample.template "bar" = "area()".
Proof.
  destruct (chart_type_is_case_blind Sample.template "line") as (Hcase & _);
    [intros s _; reflexivity|].
  destruct (chart_type_is_case_blind Sample.template "bar") as (_ & Harea);
    [intros s _; reflexivity|].
  split.
  - exact (proj1 (Hcase eq_refl)).
  - apply Harea; discriminate.
Defined.

(** ** The factsheet download, accepted symbols, blank instructions *)

Lemma upper_length s : String.length (upper s) = String.length s.
Proof. induction s as [|c s IH]; simpl; [done | by rewrite IH]. Qed.

Lemma upper_char_letter c : is_letter c = true → is_upper_letter (upper_char c) = true.
Proof. destruct c as [[] [] [] [] [] [] [] []]; vm_compute; intros; congruence. Qed.

Lemma upper_letters s :
  all_chars is_letter s = true → all_chars is_upper_letter (upper s) = true.
Proof.
  induction s as [|c s IH]; simpl; [done|].
  intros H. apply andb_true_iff in H as [Hc Hs].
  by rewrite (upper_char_letter c Hc), IH.
Qed.

Lemma lstrip_blank (s : text) : forallb is_space s = true → lstrip s = [].
Proof.
  induction s as [|c s IH]; simpl; [done|].
  intros Hs. apply andb_true_iff in Hs as [Hc Hs]. rewrite Hc. by apply IH.
Qed.

Lemma strip_empty_iff (s : text) : strip s = [] ↔ forallb is_space s = true.
Proof.
  split.
  - intros He. destruct (strip_spec s) as (l & r & Hs & Hl & Hr & _).
    rewrite He in Hs. simpl in Hs. rewrite Hs, forallb_app, Hl, Hr. done.
  - intros Hb. unfold strip. by rewrite (lstrip_blank s Hb).
Qed.

Section Download.
Context {V : Type} (w : World V).

(** X14.  After the download has answered, its status decides the outcome:
    a 2xx response gives the PDF resource with the base64 text of the body,
    a response with status 400 or more makes the tool fail with
    [HTTPStatusError] and return no resource. *)
Theorem factsheet_status_decides (s : string) (tr : list call) (response : Response) :
  http_get w pdf_url = Ok response →
  (200 ≤ status_code response < 300 →
     fst (get_factsheet w s tr)
       = Ok {| uri := "ui://data/factsheets/" +:+ s +:+ ".pdf";
               mime_type := "application/pdf";
               blob := b64encode (content response);
               meta := [] |}) ∧
  (400 ≤ status_code response →
     fst (get_factsheet w s tr) = Raise (HTTPStatusError (status_code response))).
Proof.
  intros Hg. rewrite get_factsheet_run, Hg. simpl. unfold raise_for_status.
  split; intros Hs.
  - destruct (Z.leb_spec 200 (status_code response)); [|lia].
    destruct (Z.ltb_spec (status_code response) 300); [|lia]. done.
  - destruct (Z.ltb_spec (status_code response) 300); [lia|].
    by rewrite andb_false_r.
Qed.

End Download.

Lemma factsheet_status_decides_witness :
  fst (get_factsheet Sample.world_down "AAPL" []) = Raise (HTTPStatusError 404).
Proof.
  apply (factsheet_status_decides Sample.world_down "AAPL" []
           {| status_code := 404; content := [] |} eq_refl).
  simpl. lia.
Defined.

(** X15.  A text of 1 to 10 ASCII letters of any case passes validation
    once uppercased, and [upper] keeps its length; with a lowercase letter
    in it, the text itself does not pass. *)
Theorem uppercased_letters_pass_validation (s : string) :
  (1 ≤ String.length s ≤ 10)%nat →
  all_chars is_letter s = true →
  validate_symbol (upper s) = Ok (upper s) ∧
  String.length (upper s) = String.length s ∧
  (any_char is_lower_letter s = true →
     is_validation_error (validate_symbol s) = true).
Proof.
  intros Hlen Hl. split; [|split].
  - apply validate_symbol_Ok. split; [by rewrite upper_length | by apply upper_letters].
  - apply upper_length.
  - intros Hlow. apply lowercase_breaks_shape in Hlow.
    destruct (validate_symbol_Raise s Hlow) as [reason ->]. done.
Qed.

Lemma uppercased_letters_pass_validation_witness :
  validate_symbol (upper "Aapl") = Ok "AAPL" ∧
  is_validation_error (validate_symbol "Aapl") = true.
Proof.
  destruct (uppercased_letters_pass_validation "Aapl") as (Hu & _ & Hv).
  - simpl. lia.
  - reflexivity.
  - split; [exact Hu | exact (Hv eq_refl)].
Defined.

(** X16.  When [exists()] answers, the endpoint returns the bare [name]
    object exactly when the file does not exist, or exists but cannot be
    read, or exists and holds only whitespace (any Unicode whitespace): a
    blank file is treated like a missing one.  When [exists()] raises, the
    endpoint does not answer at all. *)
Theorem blank_instructions_like_missing (f : InstructionsFile) :
  (wingman_endpoint f = Ok {[ "name" := text_of "wingman" ]} ↔
   file_exists f = Ok false ∨
   (file_exists f = Ok true ∧
    ((∃ e, file_read f = Raise e) ∨
     (∃ content, file_read f = Ok content ∧ forallb is_space content = true)))) ∧
  (∀ e, file_exists f = Raise e → wingman_endpoint f = Raise e).
Proof.
  destruct f as [ex rd]. unfold wingman_endpoint; simpl. split.
  2: { intros e ->. reflexivity. }
  destruct ex as [[|]|e0]; simpl.
  - destruct rd as [content|e]; simpl.
    + destruct (truthy (strip content)) eqn:Ht.
      * split.
        -- intros Heq.
           apply (f_equal (λ r : result (gmap string text),
                             match r with
                             | Ok m => m !! "instructions"
                             | Raise _ => None
                             end)) in Heq.
           simpl in Heq. rewrite lookup_insert_eq in Heq.
           rewrite lookup_singleton_ne in Heq by done. done.
        -- intros [Hf|[_ [[e He]|(content' & [= <-] & Hb)]]]; [done..|].
           apply strip_empty_iff in Hb. by rewrite Hb in Ht.
      * split; [|done]. intros _. right. split; [done|]. right.
        exists content. split; [done|].
        apply strip_empty_iff. by destruct (strip content).
    + split; [|done]. intros _. right. split; [done|]. left. by exists e.
  - split; [by left | done].
  - split; [done|]. intros [Hf|[Hf _]]; done.
Qed.

Lemma blank_instructions_like_missing_witness :
  wingman_endpoint Sample.file_blank = Ok {[ "name" := text_of "wingman" ]}.
Proof.
  apply (proj1 (blank_instructions_like_missing Sample.file_blank)).
  right. split; [reflexivity|]. right.
  exists [160; 8195; 10]%N. split; reflexivity.
Defined.

(** X19.  Whenever [exists()] answers, the endpoint answers with a JSON
    object whose [name] is wingman and which has no key besides [name] and
    [instructions].  [instructions] is left out when the file does not
    exist, when opening or reading it raises, and when its text is blank;
    otherwise it is the text with the whitespace at both ends removed. *)
Theorem wingman_endpoint_response (f : InstructionsFile) (present : bool) :
  file_exists f = Ok present →
  ∃ data,
    wingman_endpoint f = Ok data ∧
    data !! "name" = Some (text_of "wingman") ∧
    (∀ k, k ≠ "name" → k ≠ "instructions" → data !! k = None) ∧
    (present = false → data !! "instructions" = None) ∧
    (∀ e, file_read f = Raise e → data !! "instructions" = None) ∧
    (∀ content, file_read f = Ok content → strip content = [] →
       data !! "instructions" = None) ∧
    (∀ content, present = true → file_read f = Ok content →
       strip content ≠ [] →
       data !! "instructions" = Some (strip content) ∧
       ∃ l r, content = l ++ strip content ++ r ∧
              forallb is_space l = true ∧ forallb is_space r = true ∧
              starts_blank (strip content) = false ∧
              ends_blank (strip content) = false).
Proof.
  assert (∀ d : gmap string text, d = {[ "name" := text_of "wingman" ]} →
            d !! "name" = Some (text_of "wingman") ∧
            (∀ k, k ≠ "name" → k ≠ "instructions" → d !! k = None) ∧
            d !! "instructions" = None) as Hbase.
  { intros d ->. split; [apply lookup_singleton_eq|].
    split; [intros k Hk _|]; by apply lookup_singleton_ne. }
  destruct f as [ex rd]. unfold wingman_endpoint; simpl. intros ->. simpl.
  eexists; split; [reflexivity|].
  destruct present; simpl.
  - destruct rd as [content|e]; simpl.
    + destruct (truthy (strip content)) eqn:Ht.
      * split; [by rewrite lookup_insert_ne|].
        split; [intros k Hk Hi; rewrite lookup_insert_ne by done;
                by apply lookup_singleton_ne|].
        split; [done|]. split; [done|].
        split.
        -- intros content' [= <-] Hs. rewrite Hs in Ht. done.
        -- intros content' _ [= <-] _.
           split; [apply lookup_insert_eq | apply strip_spec].
      * destruct (Hbase _ eq_refl) as (H1 & H2 & H3).
        split; [done|]. split; [done|]. split; [done|]. split; [done|].
        split; [done|]. intros content' _ [= <-] Hs. destruct (strip content); done.
    + destruct (Hbase _ eq_refl) as (H1 & H2 & H3).
      repeat (split; [done|]). done.
  - destruct (Hbase _ eq_refl) as (H1 & H2 & H3).
    repeat (split; [done|]). done.
Qed.

Lemma wingman_endpoint_response_witness :
  ∃ data,
    wingman_endpoint Sample.file_text = Ok data ∧
    data !! "name" = Some (text_of "wingman") ∧
    data !! "instructions" = Some (text_of "Use the stock tools.").
Proof.
  destruct (wingman_endpoint_response Sample.file_text true eq_refl)
    as (data & Hd & Hn & _ & _ & _ & _ & Hi).
  exists data. split; [exact Hd|]. split; [exact Hn|].
  destruct (Hi (text_of "  Use the stock tools.  ") eq_refl eq_refl) as [Hinstr _].
  - discriminate.
  - exact Hinstr.
Defined.

(** ** Undatable labels and the tools' defaults *)

Section Defaults.
Context {V : Type} (w : World V) (wc : World num) (t : Template).

(** X17.  An index label that has neither [date] nor [to_pydatetime] and
    whose first ten characters are not an ISO date is filed under today's
    date; a non-empty frame made only of such labels therefore yields one
    bar, dated today, holding the last row. *)
Theorem undatable_rows_filed_under_today (hist : DataFrame V) (r : Index * list V) :
  df_empty hist = false →
  (∀ r', r' ∈ rows hist →
     idx_date r'.1 = None ∧ idx_pydate r'.1 = None ∧
     fromisoformat w (prefix 10 (idx_str r'.1)) = None) →
  last (rows hist) = Some r →
  StockHistory.build_bars w hist
    = {[ today w := StockHistory.bar_of_row (columns hist) r.2 ]}.
Proof.
  intros He Hu Hl. unfold StockHistory.build_bars. rewrite He.
  apply foldl_add_bar_same_key; [by left | | done].
  intros r' Hr'. destruct (Hu r' Hr') as (Hd & Hp & Hf).
  unfold StockHistory.date_key. by rewrite Hd, Hp, Hf.
Qed.


End Defaults.

Lemma undatable_rows_filed_under_today_witness :
  StockHistory.build_bars Sample.world Sample.frame_opaque
    = {[ (2026, 1, 1) := StockHistory.bar_of_row ["Close"] [PFloat Sample.f101] ]}.
Proof.
  apply (undatable_rows_filed_under_today Sample.world Sample.frame_opaque
           (Sample.opaque_label "row-b", [PFloat Sample.f101])).
  - reflexivity.
  - intros r' Hr'. simpl in Hr'.
    apply elem_of_cons in Hr' as [->|Hr']; [repeat split|].
    apply list_elem_of_singleton in Hr' as ->. repeat split.
  - reflexivity.
Defined.


(** ** Numbers handed to the [StockInfo] model *)

Lemma new_StockInfo_Ok_fields sym
    (a1 a2 a3 a4 a5 a6 a7 a8 a9 a10 a11 a12 a13 a14 : option num) r :
  StockInfo.new_StockInfo sym a1 a2 a3 a4 a5 a6 a7 a8 a9 a10 a11 a12 a13 a14 = Ok r →
  (StockInfo.current_price r = validated OptionalFloatOrStr a2 ∧
   rejected "current_price" OptionalFloatOrStr a2 = []) ∧
  (StockInfo.market_cap r = validated OptionalIntOrStr a3 ∧
   rejected "market_cap" OptionalIntOrStr a3 = []).
Proof.
  unfold StockInfo.new_StockInfo. intros Hr.
  match type of Hr with
  | match ?l with [] => _ | _ :: _ => _ end = _ => destruct l eqn:He
  end; [|discriminate Hr].
  injection Hr as <-.
  apply app_eq_nil in He as [_ He]. apply app_eq_nil in He as [H2 He].
  apply app_eq_nil in He as [H3 _]. done.
Qed.

(** X20.  On a backend whose quote values are numbers: a number under
    [longName] makes [get_stock_info] fail with the model's validation
    error, [company_name] among the rejected fields; when the tool returns,
    an int under [currentPrice] has become the float of the same value, and
    a float under [marketCap] was whole and has become the int of the same
    value. *)
Theorem info_numbers_validated (w : World num) (s : string) (tr : list call)
    (info : gmap string num) :
  yf_info w (upper s) = Ok info →
  (∀ v, info !! "longName" = Some v →
     ∃ fields,
       fst (StockInfo.get_stock_info w s tr)
         = Raise (ModelValidationError "StockInfo" fields) ∧
       "company_name" ∈ fields) ∧
  (∀ r z, fst (StockInfo.get_stock_info w s tr) = Ok r →
     info !! "currentPrice" = Some (PInt z) →
     ∃ f, float_of_Z z = Ok f ∧ StockInfo.current_price r = Some (PFloat f)) ∧
  (∀ r f, fst (StockInfo.get_stock_info w s tr) = Ok r →
     info !! "marketCap" = Some (PFloat f) →
     ∃ z, int_of_whole_float f = Some z ∧ StockInfo.market_cap r = Some (PInt z)).
Proof.
  intros Hi. rewrite get_stock_info_run, Hi, bind_Ok. simpl fst.
  split; [|split].
  - intros v Hv. unfold StockInfo.new_StockInfo. rewrite Hv.
    assert (rejected "company_name" OptionalStr (Some v) = ["company_name"]) as ->
      by (by destruct v).
    simpl. eexists. split; [reflexivity|]. apply list_elem_of_here.
  - intros r z Hr Hz. apply new_StockInfo_Ok_fields in Hr as [[Hp Hrej] _].
    rewrite Hz in Hp, Hrej. unfold validated in Hp. unfold rejected in Hrej.
    unfold validate, num_validator in Hp, Hrej. simpl in Hp, Hrej.
    destruct (float_of_Z z) as [f|e]; [by exists f | discriminate Hrej].
  - intros r f Hr Hf. apply new_StockInfo_Ok_fields in Hr as [_ [Hm Hrej]].
    rewrite Hf in Hm, Hrej. unfold validated in Hm. unfold rejected in Hrej.
    unfold validate, num_validator in Hm, Hrej. simpl in Hm, Hrej.
    destruct (int_of_whole_float f) as [z|]; [by exists z | discriminate Hrej].
Qed.

Lemma info_numbers_validated_witness :
  (∃ fields,
     fst (StockInfo.get_stock_info Sample.world "IBM" [])
       = Raise (ModelValidationError "StockInfo" fields) ∧
     "company_name" ∈ fields) ∧
  (∃ r, fst (StockInfo.get_stock_info Sample.world "AAPL" []) = Ok r ∧
        StockInfo.current_price r = Some (PFloat Sample.f100)).
Proof.
  split.
  - apply (proj1 (info_numbers_validated Sample.world "IBM" []
                    {[ "longName" := PInt 1; "currentPrice" := PFloat Sample.f100 ]}
                    eq_refl) (PInt 1)).
    reflexivity.
  - eexists. split; [reflexivity|].
    destruct (proj1 (proj2 (info_numbers_validated Sample.world "AAPL" []
                {[ "marketCap" := PInt 3000000; "currentPrice" := PInt 100 ]}
                eq_refl)) _ 100 eq_refl eq_refl) as (f & Hf & Hp).
    rewrite Hp. vm_compute in Hf. injection Hf as <-. reflexivity.
Defined.
